(** * Namcap.rules.sodepends: shared-library dependency checks

    A shallow embedding of [src/Namcap/rules/sodepends.py] (the scanner
    [scanlibs], the resolver [finddepends], the cache builder
    [filllibcache] and the reporter [SharedLibsRule.analyze]) together
    with the properties its specification states about it.

    Python dictionaries are finite maps ([gmap]), Python sets are finite
    sets ([gset]); lists that the code walks in order stay lists.  The
    iteration order Python gives to a [dict] or a [set] is not kept; no
    statement below depends on it. *)

From Stdlib Require Import ZArith Ascii String.
From stdpp Require Import base decidable option list gmap strings pretty.

Local Open Scope string_scope.
Local Open Scope list_scope.
Local Open Scope Z_scope.

(** ** String primitives of the Python code *)

Module Str.

(** [s[n:]] *)
Fixpoint drop (n : nat) (s : string) : string :=
  match n, s with
  | O, _ => s
  | S _, EmptyString => EmptyString
  | S n', String _ s' => drop n' s'
  end.

(** [s[:n]] *)
Fixpoint take (n : nat) (s : string) : string :=
  match n, s with
  | O, _ => EmptyString
  | S _, EmptyString => EmptyString
  | S n', String c s' => String c (take n' s')
  end.

(** [s.startswith(p)] *)
Fixpoint startswith (p s : string) : bool :=
  match p, s with
  | EmptyString, _ => true
  | String _ _, EmptyString => false
  | String a p', String b s' => if Ascii.eqb a b then startswith p' s' else false
  end.

(** [s.endswith(p)] *)
Definition endswith (p s : string) : bool :=
  (String.length p <=? String.length s)%nat
  && String.eqb (drop (String.length s - String.length p) s) p.

(** [p in s], which is also what [re.compile(p).search(s)] decides for a
    pattern without metacharacters. *)
Fixpoint contains (p s : string) : bool :=
  startswith p s ||
  match s with
  | EmptyString => false
  | String _ s' => contains p s'
  end.

(** [s.find(p)]: the index of the first occurrence. *)
Fixpoint find (p s : string) : option nat :=
  if startswith p s then Some O
  else match s with
       | EmptyString => None
       | String _ s' => S <$> find p s'
       end.

(** [s.rfind(p)]: the index of the last occurrence. *)
Fixpoint rfind (p s : string) : option nat :=
  match s with
  | EmptyString => if startswith p s then Some O else None
  | String _ s' =>
      match rfind p s' with
      | Some i => Some (S i)
      | None => if startswith p s then Some O else None
      end
  end.

Definition is_newline (c : ascii) : bool := Ascii.eqb c "010"%char.

(** No line feed in the string: the regular expression dot matches every
    character of it. *)
Fixpoint one_line (s : string) : bool :=
  match s with
  | EmptyString => true
  | String c s' => negb (is_newline c) && one_line s'
  end.

(** [\d] on the characters a path is made of. *)
Definition is_digit (c : ascii) : bool :=
  let n := nat_of_ascii c in (48 <=? n)%nat && (n <=? 57)%nat.

End Str.

(** ** Regular expressions of the module *)

(** [re.sub(r"\.so.*", ".so", name)].  The scan goes left to right; where
    the text starts with [.so] the match runs to the end of the line (the
    dot does not match a line feed) and is replaced by [.so]; [skip] tells
    that the scan is inside such a match. *)
Fixpoint sub_so_tail (skip : bool) (s : string) : string :=
  match s with
  | EmptyString => EmptyString
  | String c s' =>
      if skip then
        if Str.is_newline c then String c (sub_so_tail false s')
        else sub_so_tail true s'
      else if Str.startswith ".so" s then ".so" +:+ sub_so_tail true s'
      else String c (sub_so_tail false s')
  end.

Definition re_sub_soname (name : string) : string := sub_so_tail false name.

(** The text after the match of [^.*\.so\.] at the start of [s], if the
    pattern matches: the star is greedy, so the match ends with the last
    [.so.] of the first line. *)
Fixpoint after_last_so_dot (s : string) : option string :=
  match s with
  | EmptyString => None
  | String c s' =>
      if Str.is_newline c then None
      else match after_last_so_dot s' with
           | Some r => Some r
           | None => if Str.startswith ".so." s then Some (Str.drop 4 s) else None
           end
  end.

(** [re.sub] of the pattern [^.*\.so\.] by the empty string in [name]
    (line 54 and line 61): the anchor allows one match only, at the start. *)
Definition re_sub_soversion (name : string) : string :=
  match after_last_so_dot name with
  | Some r => r
  | None => name
  end.

(** [str(bitsize)] *)
Definition str_of_int (n : Z) : string := pretty n.

(** [soname + "=" + soversion + "-" + str(bitsize)] *)
Definition library_key (name : string) (bitsize : Z) : string :=
  re_sub_soname name +:+ "=" +:+ re_sub_soversion name +:+ "-" +:+ str_of_int bitsize.


(** ** Path functions of [os.path] *)

(** [s.rstrip("/")] *)
Fixpoint rstrip_slash (s : string) : string :=
  match s with
  | EmptyString => EmptyString
  | String c s' =>
      match rstrip_slash s' with
      | EmptyString => if Ascii.eqb c "/"%char then EmptyString else String c EmptyString
      | r => String c r
      end
  end.

(** [s == "/" * len(s)] *)
Fixpoint all_slashes (s : string) : bool :=
  match s with
  | EmptyString => true
  | String c s' => Ascii.eqb c "/"%char && all_slashes s'
  end.

(** [p.rfind("/") + 1] *)
Definition after_last_slash (p : string) : nat :=
  match Str.rfind "/" p with
  | Some i => S i
  | None => O
  end.

(** [os.path.dirname] (posixpath). *)
Definition dirname (p : string) : string :=
  let head := Str.take (after_last_slash p) p in
  if negb (String.eqb head EmptyString) && negb (all_slashes head)
  then rstrip_slash head
  else head.

(** [os.path.basename] (posixpath). *)
Definition basename (p : string) : string := Str.drop (after_last_slash p) p.

(** [s.replace(old, new)] for a non-empty [old]; [skip] counts the
    characters of a replaced occurrence that are still to be passed. *)
Fixpoint replace_from (old new : string) (skip : nat) (s : string) : string :=
  match s with
  | EmptyString => EmptyString
  | String c s' =>
      match skip with
      | S k => replace_from old new k s'
      | O =>
          if Str.startswith old s
          then new +:+ replace_from old new (String.length old - 1) s'
          else String c (replace_from old new O s')
      end
  end.

Definition replace (old new s : string) : string := replace_from old new O s.

(** The functions of [os.path] whose result depends on the file system or
    on the working directory; the module only calls them. *)
Record OsPath := {
  abspath : string → string;
  realpath : string → string;
  normpath : string → string
}.

(** ** Data model *)

(** [Architecture: TypeAlias = Literal["i686", "x86-64"]] *)
Inductive Architecture := i686 | x86_64.

(** [libcache: dict[Architecture, dict[str, str]]], one map per label. *)
Record LibCache := {
  cache_i686 : gmap string string;
  cache_x86_64 : gmap string string
}.

(** [libcache[architecture]] *)
Definition cache_of (c : LibCache) (a : Architecture) : gmap string string :=
  match a with
  | i686 => cache_i686 c
  | x86_64 => cache_x86_64 c
  end.

(** A tag of a dynamic section: [tag.entry.d_tag] with [tag.soname] or
    [tag.needed] where the tag has one; [DT_OTHER] stands for every other
    [d_tag]. *)
Inductive Tag :=
  | DT_SONAME (soname : string)
  | DT_NEEDED (needed : string)
  | DT_OTHER (d_tag : string).

(** A section of an ELF file: a [DynamicSection] with its tags, or any
    other section. *)
Inductive ElfSection :=
  | DynamicSection (tags : list Tag)
  | OtherSection.

(** What the module reads from a file object: whether [is_elf] accepts it,
    [ELFFile(f).elfclass], the sections in the order of [iter_sections],
    and the search paths [get_rpaths] and [get_runpaths] yield.  pyelftools
    sets [elfclass] to 32 or 64 from the class byte of the header and
    raises [ELFError] for a header it does not accept; a value of
    [elfclass] other than 32 and 64 stands for such a file. *)
Record FileObj := {
  is_elf : bool;
  elfclass : Z;
  sections : list ElfSection;
  rpaths : list string;
  runpaths : list string
}.

(** The three dictionaries [scanlibs] fills: [liblist] (resolved path to
    requiring files), [libdepends] (key to resolved path) and [libprovides]
    (key to providing files). *)
Record ScanMaps := {
  liblist : gmap string (gset string);
  libdepends : gmap string string;
  libprovides : gmap string (gset string)
}.

Definition empty_maps : ScanMaps :=
  {| liblist := ∅; libdepends := ∅; libprovides := ∅ |}.

(** [d[k]] on a [defaultdict(set)]. *)
Definition set_at (d : gmap string (gset string)) (k : string) : gset string :=
  default ∅ (d !! k).

(** [d[k].add(x)] on a [defaultdict(set)]. *)
Definition add_at (k x : string) (d : gmap string (gset string)) : gmap string (gset string) :=
  <[k := set_at d k ∪ {[x]}]> d.

(** The exceptions of the code modelled here: the read of a local that
    was never bound, and the [ELFError] of [ELFFile(fileobj)]. *)
Inductive Exn :=
  | UnboundLocalError (var : string)
  | ELFError.

Inductive Result (A : Type) :=
  | Ok (a : A)
  | Raise (e : Exn).
Arguments Ok {A} a.
Arguments Raise {A} e.

Definition bind {A B : Type} (r : Result A) (f : A → Result B) : Result B :=
  match r with
  | Ok a => f a
  | Raise e => Raise e
  end.

(** [for x in xs: body], stopping at the first exception. *)
Fixpoint for_each {A S : Type} (body : A → S → Result S) (xs : list A) (s : S) : Result S :=
  match xs with
  | [] => Ok s
  | x :: xs' => bind (body x s) (for_each body xs')
  end.

(** ** [scanlibs] *)

(** Lines 45-50: the [match] on [bitsize] binds [architecture] in two
    cases and has no other case, so the local keeps what it had ([None]
    when it was never bound). *)
Definition match_bitsize (bitsize : Z) (architecture : option Architecture) : option Architecture :=
  if bitsize =? 32 then Some i686
  else if bitsize =? 64 then Some x86_64
  else architecture.

(** [os.path.dirname(filename) in ["usr/lib", "usr/lib32"]] *)
Definition in_lib_dir (filename : string) : bool :=
  String.eqb (dirname filename) "usr/lib" || String.eqb (dirname filename) "usr/lib32".

(** Lines 65-69: the cache lookup with its [except KeyError].  Reading
    the unbound local raises [UnboundLocalError], which the handler does
    not catch. *)
Definition resolve_libpath (os : OsPath) (cache : LibCache)
    (architecture : option Architecture) (libname : string) : Result string :=
  match architecture with
  | None => Raise (UnboundLocalError "architecture")
  | Some a =>
      match cache_of cache a !! libname with
      | Some p => Ok (Str.drop 1 (abspath os p))
      | None => Ok libname
      end
  end.

(** The body of the loop over the tags (lines 45-71); the state is the
    local [architecture] and the three dictionaries. *)
Definition scan_tag (os : OsPath) (cache : LibCache) (bitsize : Z) (filename : string)
    (custom_libs : gmap string string) (tag : Tag)
    (st : option Architecture * ScanMaps) : Result (option Architecture * ScanMaps) :=
  let architecture := match_bitsize bitsize st.1 in
  let m := st.2 in
  let m1 :=
    match tag with
    | DT_SONAME soname =>
        if in_lib_dir filename
        then {| liblist := liblist m;
                libdepends := libdepends m;
                libprovides := add_at (library_key soname bitsize) filename (libprovides m) |}
        else m
    | _ => m
    end in
  match tag with
  | DT_NEEDED libname =>
      match custom_libs !! libname with
      | Some _ => Ok (architecture, m1)
      | None =>
          bind (resolve_libpath os cache architecture libname) (λ libpath,
            Ok (architecture,
                {| liblist := add_at libpath filename (liblist m1);
                   libdepends := <[library_key libname bitsize := libpath]> (libdepends m1);
                   libprovides := libprovides m1 |}))
      end
  | _ => Ok (architecture, m1)
  end.

(** The body of the loop over the sections (lines 41-44). *)
Definition scan_section (os : OsPath) (cache : LibCache) (bitsize : Z) (filename : string)
    (custom_libs : gmap string string) (section : ElfSection)
    (st : option Architecture * ScanMaps) : Result (option Architecture * ScanMaps) :=
  match section with
  | OtherSection => Ok st
  | DynamicSection tags => for_each (scan_tag os cache bitsize filename custom_libs) tags st
  end.

(** The word size is one of the two that pyelftools knows, which are also
    the two the [match] of line 46 handles. *)
Definition known_class (bitsize : Z) : bool := (bitsize =? 32) || (bitsize =? 64).

(** [ELFFile(fileobj)] (line 40): the parsed file, or [ELFError]. *)
Definition ELFFile (fileobj : FileObj) : Result FileObj :=
  if known_class (elfclass fileobj) then Ok fileobj else Raise ELFError.

(** [scanlibs(fileobj, filename, custom_libs, liblist, libdepends,
    libprovides)]: the dictionaries after the call, or the exception. *)
Definition scanlibs (os : OsPath) (cache : LibCache) (fileobj : FileObj) (filename : string)
    (custom_libs : gmap string string) (m : ScanMaps) : Result ScanMaps :=
  if negb (is_elf fileobj) then Ok m
  else
    bind (ELFFile fileobj) (λ elffile,
      bind (for_each (scan_section os cache (elfclass elffile) filename custom_libs)
                     (sections elffile) (None, m))
           (λ st, Ok st.2)).

(** ** [finddepends] *)

(** An installed package as [Namcap.package.get_installed_packages]
    yields it: [pkg.name], [pkg.files] (path, size, mode) and
    [pkg.provides]. *)
Record Package := {
  pkg_name : string;
  pkg_files : list (string * Z * Z);
  pkg_provides : list string
}.

(** The package database the module queries.  [load_testing_package] and
    [load_from_db] give the ["version"] field of the package they find. *)
Record PackageDb := {
  get_installed_packages : list Package;
  load_testing_package : string → option string;
  load_from_db : string → option string
}.

(** The states of a scan for [(\.\d+)*]: at the start of a group, after
    the dot of a group, inside the digits of a group. *)
Inductive SoEndState := AtGroup | AfterDot | InDigits.

(** The greedy scan for [(\.\d+)*]: [pos] is the offset of the next
    character, [stop] the end of the last complete group, which is where
    the match ends when the scan cannot go on. *)
Fixpoint so_end_scan (st : SoEndState) (pos stop : nat) (s : string) : nat :=
  match s with
  | EmptyString => stop
  | String c s' =>
      match st with
      | AfterDot =>
          if Str.is_digit c then so_end_scan InDigits (S pos) (S pos) s' else stop
      | InDigits =>
          if Str.is_digit c then so_end_scan InDigits (S pos) (S pos) s'
          else if Ascii.eqb c "."%char then so_end_scan AfterDot (S pos) stop s'
          else stop
      | AtGroup =>
          if Ascii.eqb c "."%char then so_end_scan AfterDot (S pos) stop s' else stop
      end
  end.

(** [so_end.match(s)] for [so_end = re.compile(r"(\.\d+)*")]: the match
    object, given by the offset where the match ends, or [None]. *)
Definition so_end_match (s : string) : option nat := Some (so_end_scan AtGroup O O s).

(** The truth value Python gives to the result of [match]. *)
Definition truthy (m : option nat) : bool :=
  match m with
  | Some _ => true
  | None => false
  end.

(** [is_so.search(j)] for [is_so = re.compile(r"\.so")] *)
Definition is_so_search (j : string) : bool := Str.contains ".so" j.

(** The condition of line 111, on a file [j] and the canonical path [ap]
    of a required library. *)
Definition lib_matches (j ap : string) : bool :=
  String.eqb j ap
  || (Str.startswith ap j && truthy (so_end_match (Str.drop (String.length ap) j))).

(** [d[k]] on a [defaultdict(str)]. *)
Definition str_at (d : gmap string string) (k : string) : string :=
  default EmptyString (d !! k).

(** [os.path.realpath("/" + p)[1:]] *)
Definition canonical (os : OsPath) (p : string) : string :=
  Str.drop 1 (realpath os ("/" +:+ p)).

(** [dict((j, os.path.realpath("/" + libdepends[j])[1:]) for j in knownlibs)] *)
Definition actualpath_of (os : OsPath) (libdepends : gmap string string) : gmap string string :=
  canonical os <$> libdepends.

(** The dictionaries and the set the loops of [finddepends] update. *)
Record Found := {
  dependlist : gmap string (gset string);
  libdependlist : gmap string string;
  foundlibs : gset string;
  missing_provides : gmap string string
}.

Definition nothing_found : Found :=
  {| dependlist := ∅; libdependlist := ∅; foundlibs := ∅; missing_provides := ∅ |}.

(** [k in pkg.provides] and the like. *)
Definition mem (k : string) (l : list string) : bool := existsb (String.eqb k) l.

(** Lines 111-118, for a package [pkg], one of its files [j] and a key
    [k]. *)
Definition visit_key (libdepends actualpath : gmap string string)
    (pkg : Package) (j : string) (st : Found) (k : string) : Found :=
  if lib_matches j (str_at actualpath k) then
    {| dependlist := add_at (pkg_name pkg) (str_at libdepends k) (dependlist st);
       libdependlist :=
         if mem k (pkg_provides pkg) then <[k := pkg_name pkg]> (libdependlist st)
         else libdependlist st;
       foundlibs := foundlibs st ∪ {[k]};
       missing_provides :=
         if mem k (pkg_provides pkg) then missing_provides st
         else <[k := pkg_name pkg]> (missing_provides st) |}
  else st.

(** Lines 103-118, for a package and one of its file records. *)
Definition visit_file (libdepends actualpath : gmap string string) (knownlibs : list string)
    (pkg : Package) (st : Found) (f : string * Z * Z) : Found :=
  let j := f.1.1 in
  if negb (is_so_search j) then st
  else foldl (visit_key libdepends actualpath pkg j) st knownlibs.

(** Lines 102-118, for a package. *)
Definition visit_package (libdepends actualpath : gmap string string) (knownlibs : list string)
    (st : Found) (pkg : Package) : Found :=
  foldl (visit_file libdepends actualpath knownlibs pkg) st (pkg_files pkg).

(** Lines 84-118: the state after the loop over the installed packages. *)
Definition find_owners (os : OsPath) (db : PackageDb) (libdepends : gmap string string) : Found :=
  let knownlibs := elements (dom libdepends) in
  foldl (visit_package libdepends (actualpath_of os libdepends) knownlibs)
        nothing_found (get_installed_packages db).

(** [orphans = list(knownlibs - foundlibs)] *)
Definition orphans_of (libdepends : gmap string string) (st : Found) : list string :=
  elements (dom libdepends ∖ foundlibs st).

(** [finddepends(libdepends)]: the tuple it returns. *)
Definition finddepends (os : OsPath) (db : PackageDb) (libdepends : gmap string string)
    : gmap string (gset string) * gmap string string * list string * gmap string string :=
  let st := find_owners os db libdepends in
  (dependlist st, libdependlist st, orphans_of libdepends st, missing_provides st).

(** ** [filllibcache] *)

(** A line of [ldconfig -p] that [libline] matches, by its three groups. *)
Record LdLine := { group1 : string; group2 : string; group3 : string }.

(** The body of the loop of [filllibcache]; [g] is [None] for a line the
    pattern does not match. *)
Definition fill_line (c : LibCache) (g : option LdLine) : LibCache :=
  match g with
  | None => c
  | Some g =>
      if Str.startswith "libc6,x86-64" (group2 g)
      then {| cache_i686 := cache_i686 c;
              cache_x86_64 := <[group1 g := group3 g]> (cache_x86_64 c) |}
      else {| cache_i686 := <[group1 g := group3 g]> (cache_i686 c);
              cache_x86_64 := cache_x86_64 c |}
  end.

Definition filllibcache (lines : list (option LdLine)) (c : LibCache) : LibCache :=
  foldl fill_line c lines.

(** ** [SharedLibsRule.analyze] *)

(** The diagnostics of the rule, one constructor per message template,
    with the values the template is filled with.  Where the code passes
    [str(list(s))] for a set [s], or a string joined from the elements of
    a set, the constructor carries the set. *)
Inductive Msg :=
  | library_no_package_associated (path : string) (files : gset string)
  | libdepends_missing_provides (key pkg : string) (files : gset string)
  | libraries_needed (libraries needing : gset string)
  | link_level_dependence (pkg : string) (libraries : gset string)
  | libdepends_detected_satisfied (key pkg : string) (files : gset string)
  | libdepends_detected_but_optional (key pkg : string) (files : gset string)
  | libdepends_detected_not_included (key pkg : string) (files : gset string)
  | libdepends_not_needed (entry : string)
  | libdepends_without_version (entry : string)
  | libdepends_by_namcap_sight (keys : gset string)
  | libprovides_satisfied (key : string) (files : gset string)
  | libprovides_unsatisfied (key : string) (files : gset string)
  | libprovides_missing (entry : string)
  | libprovides_without_version (entry : string)
  | libprovides_by_namcap_sight (keys : gset string)
  | dependency_is_testing_release (pkg : string).

(** [self.errors], [self.warnings] and [self.infos] of the rule object. *)
Record Rule := {
  errors : list Msg;
  warnings : list Msg;
  infos : list Msg
}.

Definition add_error (msg : Msg) (r : Rule) : Rule :=
  {| errors := errors r ++ [msg]; warnings := warnings r; infos := infos r |}.

Definition add_warning (msg : Msg) (r : Rule) : Rule :=
  {| errors := errors r; warnings := warnings r ++ [msg]; infos := infos r |}.

Definition add_info (msg : Msg) (r : Rule) : Rule :=
  {| errors := errors r; warnings := warnings r; infos := infos r ++ [msg] |}.

Definition extend_warnings (msgs : list Msg) (r : Rule) : Rule :=
  {| errors := errors r; warnings := warnings r ++ msgs; infos := infos r |}.

Definition extend_infos (msgs : list Msg) (r : Rule) : Rule :=
  {| errors := errors r; warnings := warnings r; infos := infos r ++ msgs |}.

(** What the rule reads from [pkginfo], and [pkginfo.detected_deps],
    which it updates. *)
Record PkgInfo := {
  name : string;
  depends : list string;
  optdepends : list string;
  provides : list string;
  detected_deps : gmap string (list Msg)
}.

(** A member of the tarball: [entry.isfile()], [entry.name] (which is
    also [entry.path]) and the file object [tar.extractfile(entry)]. *)
Record TarEntry := {
  isfile : bool;
  entry_name : string;
  extractfile : FileObj
}.

(** [["/" + n for n in tar.getnames() if ".so" in n]] *)
Definition pkg_so_files (tar : list TarEntry) : list string :=
  (λ n, "/" +:+ n) <$> List.filter (Str.contains ".so") (entry_name <$> tar).

(** Lines 163-167: the libraries of the package that lie in a search path
    of the entry. *)
Definition rpath_files_of (os : OsPath) (entry_path : string)
    (so_files search_paths : list string) : gmap string string :=
  foldl (λ acc n,
    foldl (λ acc rp,
      let rp' := normpath os (replace "$ORIGIN" ("/" +:+ dirname entry_path) rp) in
      if String.eqb (dirname n) rp' then <[basename n := n]> acc else acc)
    acc search_paths)
  ∅ so_files.

(** The body of the loop over the entries (lines 154-169). *)
Definition scan_entry (os : OsPath) (cache : LibCache) (so_files : list string)
    (entry : TarEntry) (m : ScanMaps) : Result ScanMaps :=
  if negb (isfile entry) then Ok m
  else
    let f := extractfile entry in
    let rpath_files :=
      if is_elf f then rpath_files_of os (entry_name entry) so_files (rpaths f ++ runpaths f)
      else ∅ in
    scanlibs os cache f (entry_name entry) rpath_files m.

(** Lines 144-169: the dictionaries after all entries are scanned. *)
Definition scan_package (os : OsPath) (cache : LibCache) (tar : list TarEntry) : Result ScanMaps :=
  for_each (scan_entry os cache (pkg_so_files tar)) tar empty_maps.

(** Line 175 and line 176: [dict(filter(lambda elem: elem[1] != name, d.items()))] *)
Definition drop_internal (pkgname : string) (d : gmap string string) : gmap string string :=
  filter (λ elem, elem.2 ≠ pkgname) d.

(** [liblist[libdepends[i]]] *)
Definition requesters (m : ScanMaps) (i : string) : gset string :=
  set_at (liblist m) (str_at (libdepends m) i).

(** Lines 195-201, for one item of [dependlist]; its values are sets, so
    the test of line 196 holds. *)
Definition link_level (m : ScanMaps) (st : Rule * PkgInfo) (item : string * gset string)
    : Rule * PkgInfo :=
  let '(pkg, libraries) := item in
  let needing := ⋃ ((set_at (liblist m)) <$> elements libraries) in
  let info := st.2 in
  let reasons := default [] (detected_deps info !! pkg) in
  (add_info (link_level_dependence pkg libraries) st.1,
   {| name := name info; depends := depends info; optdepends := optdepends info;
      provides := provides info;
      detected_deps := <[pkg := reasons ++ [libraries_needed libraries needing]]> (detected_deps info) |}).

(** Lines 204-226, for one key of [libdependlist]. *)
Definition soname_dependency (m : ScanMaps) (pkginfo : PkgInfo) (libdependlist : gmap string string)
    (r : Rule) (i : string) : Rule :=
  if mem i (depends pkginfo) then
    add_info (libdepends_detected_satisfied i (str_at libdependlist i) (requesters m i)) r
  else if mem i (optdepends pkginfo) then
    add_info (libdepends_detected_but_optional i (str_at libdependlist i) (requesters m i)) r
  else
    add_info (libdepends_detected_not_included i (str_at libdependlist i) (requesters m i)) r.

(** Lines 228-232, for one entry of [pkginfo["depends"]]. *)
Definition declared_depend (libdependlist : gmap string string) (r : Rule) (i : string) : Rule :=
  let r1 :=
    if Str.contains ".so" i && negb (bool_decide (is_Some (libdependlist !! i)))
    then add_warning (libdepends_not_needed i) r else r in
  if Str.endswith ".so" i then add_error (libdepends_without_version i) r1 else r1.

(** Lines 242-246, for one key of [libprovides]. *)
Definition provided_library (m : ScanMaps) (pkginfo : PkgInfo) (r : Rule) (i : string) : Rule :=
  if mem i (provides pkginfo) then
    add_info (libprovides_satisfied i (set_at (libprovides m) i)) r
  else
    add_info (libprovides_unsatisfied i (set_at (libprovides m) i)) r.

(** Lines 248-252, for one entry of [pkginfo["provides"]]. *)
Definition declared_provide (m : ScanMaps) (r : Rule) (i : string) : Rule :=
  let r1 :=
    if Str.contains ".so" i && negb (bool_decide (is_Some (libprovides m !! i)))
    then add_warning (libprovides_missing i) r else r in
  if Str.endswith ".so" i then add_error (libprovides_without_version i) r1 else r1.

(** Lines 257-261, for one key of [dependlist]. *)
Definition testing_release (db : PackageDb) (r : Rule) (i : string) : Rule :=
  match load_testing_package db i, load_from_db db i with
  | Some p, Some q => if String.eqb p q then add_warning (dependency_is_testing_release i) r else r
  | _, _ => r
  end.

(** Lines 171-261: everything [analyze] does once the entries are
    scanned. *)
Definition report (os : OsPath) (db : PackageDb) (pkginfo : PkgInfo) (m : ScanMaps) (rule : Rule)
    : Rule * PkgInfo :=
  let '(dependlist, libdependlist0, orphans, missing_provides0) := finddepends os db (libdepends m) in
  let libdependlist := drop_internal (name pkginfo) libdependlist0 in
  let missing_provides := drop_internal (name pkginfo) missing_provides0 in
  let r1 := extend_warnings
              ((λ i, library_no_package_associated (str_at (libdepends m) i) (requesters m i))
               <$> orphans) rule in
  let r2 := extend_infos
              ((λ i, libdepends_missing_provides i (str_at missing_provides i) (requesters m i))
               <$> elements (dom missing_provides)) r1 in
  let '(r3, pkginfo') := foldl (link_level m) (r2, pkginfo) (map_to_list dependlist) in
  let r4 := foldl (soname_dependency m pkginfo libdependlist) r3 (elements (dom libdependlist)) in
  let r5 := foldl (declared_depend libdependlist) r4 (depends pkginfo) in
  let r6 := add_info (libdepends_by_namcap_sight
                        (dom libdependlist ∪ list_to_set (map_to_list missing_provides).*2)) r5 in
  let r7 := foldl (provided_library m pkginfo) r6 (elements (dom (libprovides m))) in
  let r8 := foldl (declared_provide m) r7 (provides pkginfo) in
  let r9 := add_info (libprovides_by_namcap_sight (dom (libprovides m))) r8 in
  let r10 := foldl (testing_release db) r9 (elements (dom dependlist)) in
  (r10, pkginfo').

(** [analyze(self, pkginfo, tar)].  [ldconfig] is the output of
    [ldconfig -p] as [filllibcache] reads it, decoded and matched line by
    line (an output that is not ASCII makes line 129 raise before anything
    is recorded; such a call is outside this definition), and [libcache0]
    the global cache before the call; [rule] holds the lists of the rule
    object.  The result is the rule object and [pkginfo] after the call,
    or the exception of the scan. *)
Definition analyze (os : OsPath) (db : PackageDb) (ldconfig : list (option LdLine))
    (libcache0 : LibCache) (rule : Rule) (pkginfo : PkgInfo) (tar : list TarEntry)
    : Result (Rule * PkgInfo) :=
  let libcache := filllibcache ldconfig libcache0 in
  bind (scan_package os libcache tar) (λ m, Ok (report os db pkginfo m rule)).

(** ** The specification's wording, for comparison *)

(** The soname as the specification words it: the name with everything
    after its first [.so] stripped. *)
Definition soname_by_spec (libname : string) : string :=
  match Str.find ".so" libname with
  | Some i => Str.take (i + 3) libname
  | None => libname
  end.

(** The version as the specification words it: the name with everything
    up to its last [.so.] stripped. *)
Definition version_by_spec (libname : string) : string :=
  match Str.rfind ".so." libname with
  | Some i => Str.drop (i + 4) libname
  | None => libname
  end.

(** The match rule as the specification words it: the file is the required
    path, or the required path followed by dotted numeric segments that run
    to the end of the file's path. *)
Definition matches_by_spec (j ap : string) : bool :=
  String.eqb j ap
  || (Str.startswith ap j
      && (let rest := Str.drop (String.length ap) j in
          so_end_scan AtGroup O O rest =? String.length rest)%nat).

(** The file record [f] passes the tests of lines 104 and 111 for the key
    [k], with [actualpath] as line 93 builds it. *)
Definition file_hits (actualpath : gmap string string) (k : string) (f : string * Z * Z) : bool :=
  is_so_search f.1.1 && lib_matches f.1.1 (str_at actualpath k).

(** Some file of the package does. *)
Definition matched_by (actualpath : gmap string string) (k : string) (pkg : Package) : bool :=
  existsb (file_hits actualpath k) (pkg_files pkg).

(** The names of the installed packages that match [k], in the order of
    the enumeration, split by whether the package declares [k] in its
    [provides]. *)
Definition matching_owners (os : OsPath) (db : PackageDb) (libdepends : gmap string string)
    (k : string) (declared : bool) : list string :=
  pkg_name <$>
    List.filter (λ pkg, matched_by (actualpath_of os libdepends) k pkg
                        && Bool.eqb (mem k (pkg_provides pkg)) declared)
                (get_installed_packages db).

(** What the state of [finddepends] holds about one key: its entry in
    [libdependlist], its entry in [missing_provides], and whether it is in
    [foundlibs]. *)
Definition key_view (k : string) (st : Found) : option string * option string * bool :=
  (libdependlist st !! k, missing_provides st !! k, bool_decide (k ∈ foundlibs st)).

(** Lines 113-118 on that view. *)
Definition record_owner (pkg : Package) (k : string)
    (v : option string * option string * bool) : option string * option string * bool :=
  if mem k (pkg_provides pkg) then (Some (pkg_name pkg), v.1.2, true)
  else (v.1.1, Some (pkg_name pkg), true).

Definition is_no_package (msg : Msg) : bool :=
  match msg with
  | library_no_package_associated _ _ => true
  | _ => false
  end.

(** An [os.path] for paths that are absolute, normalised and free of
    symbolic links: the three functions return their argument. *)
Definition plain_os : OsPath := {| abspath := id; realpath := id; normpath := id |}.

Definition no_rule : Rule := {| errors := []; warnings := []; infos := [] |}.

(** ** The diagnostics of the loops, message by message *)

(** [r] with three batches of messages appended to its lists. *)
Definition emit (es ws ns : list Msg) (r : Rule) : Rule :=
  {| errors := errors r ++ es; warnings := warnings r ++ ws; infos := infos r ++ ns |}.

(** The warning of line 181 for the orphan [i]. *)
Definition orphan_warning (m : ScanMaps) (i : string) : Msg :=
  library_no_package_associated (str_at (libdepends m) i) (requesters m i).

(** The info of line 189 for the key [i]. *)
Definition missing_provides_info (m : ScanMaps) (missing_provides : gmap string string)
    (i : string) : Msg :=
  libdepends_missing_provides i (str_at missing_provides i) (requesters m i).

(** The info of lines 204-226 for the key [i]. *)
Definition soname_info (m : ScanMaps) (pkginfo : PkgInfo) (libdependlist : gmap string string)
    (i : string) : Msg :=
  if mem i (depends pkginfo) then
    libdepends_detected_satisfied i (str_at libdependlist i) (requesters m i)
  else if mem i (optdepends pkginfo) then
    libdepends_detected_but_optional i (str_at libdependlist i) (requesters m i)
  else
    libdepends_detected_not_included i (str_at libdependlist i) (requesters m i).

(** The warning of line 230 for the entry [i], if any. *)
Definition depend_warnings (libdependlist : gmap string string) (i : string) : list Msg :=
  if Str.contains ".so" i && negb (bool_decide (is_Some (libdependlist !! i)))
  then [libdepends_not_needed i] else [].

(** The error of line 232 for the entry [i], if any. *)
Definition depend_errors (i : string) : list Msg :=
  if Str.endswith ".so" i then [libdepends_without_version i] else [].

(** The info of lines 242-246 for the key [i]. *)
Definition provided_info (m : ScanMaps) (pkginfo : PkgInfo) (i : string) : Msg :=
  if mem i (provides pkginfo) then libprovides_satisfied i (set_at (libprovides m) i)
  else libprovides_unsatisfied i (set_at (libprovides m) i).

(** The warning of line 250 for the entry [i], if any. *)
Definition provide_warnings (m : ScanMaps) (i : string) : list Msg :=
  if Str.contains ".so" i && negb (bool_decide (is_Some (libprovides m !! i)))
  then [libprovides_missing i] else [].

(** The error of line 252 for the entry [i], if any. *)
Definition provide_errors (i : string) : list Msg :=
  if Str.endswith ".so" i then [libprovides_without_version i] else [].

(** The warning of line 261 for the package [i], if any. *)
Definition testing_warnings (db : PackageDb) (i : string) : list Msg :=
  match load_testing_package db i, load_from_db db i with
  | Some p, Some q => if String.eqb p q then [dependency_is_testing_release i] else []
  | _, _ => []
  end.

(** The infos [analyze] adds, for the dictionaries [finddepends] returned
    and their filtered versions. *)
Definition new_infos (m : ScanMaps) (pkginfo : PkgInfo) (dependlist : gmap string (gset string))
    (libdependlist missing_provides : gmap string string) : list Msg :=
  (missing_provides_info m missing_provides <$> elements (dom missing_provides))
  ++ ((λ item : string * gset string, link_level_dependence item.1 item.2)
      <$> map_to_list dependlist)
  ++ (soname_info m pkginfo libdependlist <$> elements (dom libdependlist))
  ++ [libdepends_by_namcap_sight
        (dom libdependlist ∪ list_to_set (map_to_list missing_provides).*2)]
  ++ (provided_info m pkginfo <$> elements (dom (libprovides m)))
  ++ [libprovides_by_namcap_sight (dom (libprovides m))].

(** The message is one of the three [libdepends-detected-...] infos about
    the key [k]. *)
Definition detected_about (k : string) (msg : Msg) : bool :=
  match msg with
  | libdepends_detected_satisfied k' _ _
  | libdepends_detected_but_optional k' _ _
  | libdepends_detected_not_included k' _ _ => String.eqb k k'
  | _ => false
  end.

(** The message is the [libdepends-missing-provides] info about [k]. *)
Definition missing_about (k : string) (msg : Msg) : bool :=
  match msg with
  | libdepends_missing_provides k' _ _ => String.eqb k k'
  | _ => false
  end.

(** ** A sample analysis

    The package [P] holds a 64-bit program that needs three libraries: one
    that the installed package [Q] ships under a longer version, one that
    [P] ships itself, and one that nothing ships. *)

Definition sample_ldconfig : list (option LdLine) :=
  [None;
   Some {| group1 := "libfoo.so.2"; group2 := "libc6,x86-64"; group3 := "/usr/lib/libfoo.so.2" |};
   Some {| group1 := "libown.so.1"; group2 := "libc6,x86-64"; group3 := "/usr/lib/libown.so.1" |};
   Some {| group1 := "libbar.so.5"; group2 := "libc6"; group3 := "/usr/lib32/libbar.so.5" |}].

Definition sample_libcache0 : LibCache := {| cache_i686 := ∅; cache_x86_64 := ∅ |}.

Definition sample_tar : list TarEntry :=
  [{| isfile := false; entry_name := "usr/bin";
      extractfile := {| is_elf := false; elfclass := 0; sections := [];
                        rpaths := []; runpaths := [] |} |};
   {| isfile := true; entry_name := "usr/bin/app";
      extractfile :=
        {| is_elf := true; elfclass := 64;
           sections := [OtherSection;
                        DynamicSection [DT_NEEDED "libfoo.so.2"; DT_NEEDED "libown.so.1";
                                        DT_OTHER "DT_STRTAB"; DT_NEEDED "libbar.so.5"]];
           rpaths := []; runpaths := [] |} |};
   {| isfile := true; entry_name := "usr/lib/libown.so.1";
      extractfile :=
        {| is_elf := true; elfclass := 64;
           sections := [DynamicSection [DT_SONAME "libown.so.1"]];
           rpaths := []; runpaths := [] |} |}].

Definition sample_db : PackageDb :=
  {| get_installed_packages :=
       [{| pkg_name := "Q";
           pkg_files := [("usr/share/doc/foo", 0, 0); ("usr/lib/libfoo.so.2.0.1", 0, 0)];
           pkg_provides := ["libfoo.so=2-64"] |};
        {| pkg_name := "P";
           pkg_files := [("usr/bin/app", 0, 0); ("usr/lib/libown.so.1", 0, 0)];
           pkg_provides := ["libown.so=1-64"] |}];
     load_testing_package := λ _, None;
     load_from_db := λ _, None |}.

Definition sample_pkginfo : PkgInfo :=
  {| name := "P";
     depends := ["libfoo.so=2-64"; "libbar.so"];
     optdepends := [];
     provides := ["libown.so"; "libown.so=1-64"];
     detected_deps := ∅ |}.

(** The same system with the two packages in the other roles: [Q] ships a
    longer version of the library of [P] and declares nothing, [P] ships
    and declares its library. *)
Definition cross_db : PackageDb :=
  {| get_installed_packages :=
       [{| pkg_name := "Q";
           pkg_files := [("usr/lib/libown.so.1.0.0", 0, 0)];
           pkg_provides := [] |};
        {| pkg_name := "P";
           pkg_files := [("usr/bin/app", 0, 0); ("usr/lib/libown.so.1", 0, 0)];
           pkg_provides := ["libown.so=1-64"] |}];
     load_testing_package := λ _, None;
     load_from_db := λ _, None |}.

(** The dictionaries of the scan of [sample_tar]. *)
Definition sample_maps : ScanMaps :=
  match scan_package plain_os (filllibcache sample_ldconfig sample_libcache0) sample_tar with
  | Ok m => m
  | Raise _ => empty_maps
  end.

(** ** Predicates on the input of the scanner *)

(** The entry is a regular file that [is_elf] accepts. *)
Definition elf_entry (entry : TarEntry) : bool := isfile entry && is_elf (extractfile entry).

(** ** The lines of the listing that concern a name *)

(** The architecture under which line 132 files a line. *)
Definition line_architecture (g : LdLine) : Architecture :=
  if Str.startswith "libc6,x86-64" (group2 g) then x86_64 else i686.

Definition same_architecture (a b : Architecture) : bool :=
  match a, b with
  | i686, i686 | x86_64, x86_64 => true
  | _, _ => false
  end.

(** The line is matched by [libline], names [n] and is filed under [a]. *)
Definition line_for (a : Architecture) (n : string) (g : option LdLine) : bool :=
  match g with
  | Some g => String.eqb (group1 g) n && same_architecture (line_architecture g) a
  | None => false
  end.

(** The paths the listing gives to [n] under [a], in the order of the
    lines. *)
Definition listed_paths (a : Architecture) (n : string) (lines : list (option LdLine))
    : list string :=
  group3 <$> List.filter (λ g, line_for a n (Some g)) (omap id lines).

(** ** Further predicates on the diagnostics *)

Definition is_not_needed (msg : Msg) : bool :=
  match msg with
  | libdepends_not_needed _ => true
  | _ => false
  end.

Definition is_provides_missing (msg : Msg) : bool :=
  match msg with
  | libprovides_missing _ => true
  | _ => false
  end.

Definition is_testing_release (msg : Msg) : bool :=
  match msg with
  | dependency_is_testing_release _ => true
  | _ => false
  end.

(** The dictionary [d] of [finddepends] gives the key [i] to a package
    other than [pkgname]. *)
Definition owned_elsewhere (pkgname : string) (d : gmap string string) (i : string) : bool :=
  match d !! i with
  | Some p => negb (String.eqb p pkgname)
  | None => false
  end.

(** The reason of line 200 for the libraries [libraries] of a package. *)
Definition needed_reason (m : ScanMaps) (libraries : gset string) : Msg :=
  libraries_needed libraries (⋃ ((set_at (liblist m)) <$> elements libraries)).

(** * Properties *)

(** ** Strings *)

Lemma startswith_take (p s : string) :
  Str.startswith p s = true → Str.take (String.length p) s = p.
Proof.
  revert s. induction p as [|a p IH]; intros [|b s]; simpl; try done.
  destruct (Ascii.eqb_spec a b) as [->|]; [|done].
  intros H. by rewrite (IH s H).
Qed.

Lemma startswith_refl (s : string) : Str.startswith s s = true.
Proof. induction s as [|a s IH]; simpl; [done|]. by rewrite Ascii.eqb_refl. Qed.

Lemma eqb_startswith (j ap : string) : String.eqb j ap = true → Str.startswith ap j = true.
Proof. intros H%String.eqb_eq. subst. apply startswith_refl. Qed.

(** ** Key derivation *)

Lemma sub_so_tail_skip (s : string) :
  Str.one_line s = true → sub_so_tail true s = EmptyString.
Proof.
  induction s as [|c s IH]; [done|].
  cbn [Str.one_line sub_so_tail]. intros [Hc Hs]%andb_true_iff.
  apply negb_true_iff in Hc. rewrite Hc. auto.
Qed.

Lemma sub_so_tail_spec (s : string) :
  Str.one_line s = true → sub_so_tail false s = soname_by_spec s.
Proof.
  unfold soname_by_spec. induction s as [|c s IH]; [done|].
  intros Hl. pose proof Hl as [Hc Hs]%andb_true_iff.
  cbn [sub_so_tail Str.find].
  destruct (Str.startswith ".so" (String c s)) eqn:E.
  - rewrite (sub_so_tail_skip s Hs). cbn [fmap option_fmap option_map].
    change (0 + 3)%nat with (String.length ".so").
    by rewrite (startswith_take ".so" (String c s) E).
  - rewrite (IH Hs). destruct (Str.find ".so" s) as [i|]; reflexivity.
Qed.

Lemma after_last_so_dot_spec (s : string) :
  Str.one_line s = true →
  after_last_so_dot s = (λ i, Str.drop (i + 4) s) <$> Str.rfind ".so." s.
Proof.
  induction s as [|c s IH]; [done|].
  intros [Hc Hs]%andb_true_iff. apply negb_true_iff in Hc.
  cbn [after_last_so_dot Str.rfind]. rewrite Hc, (IH Hs).
  destruct (Str.rfind ".so." s) as [i|]; [reflexivity|].
  cbn [fmap option_fmap option_map].
  destruct (Str.startswith ".so." (String c s)); reflexivity.
Qed.

(** C3, as the code has it.  For a linkage name on one line (the dot of
    the two patterns does not match a line feed), the soname is the name
    cut after its first [.so] and the version is the name with everything
    up to its last [.so.] removed; a name that has no [.so.] is its own
    version.  So [libfoo.so.1.2.3] gives [libfoo.so] and [1.2.3], and
    [libfoo.so] gives the version [libfoo.so]. *)
Theorem library_key_derivation (libname : string) (bitsize : Z) :
  Str.one_line libname = true →
  re_sub_soname libname = soname_by_spec libname
  ∧ re_sub_soversion libname = version_by_spec libname
  ∧ (Str.rfind ".so." libname = None → re_sub_soversion libname = libname)
  ∧ library_key libname bitsize
    = soname_by_spec libname +:+ "=" +:+ version_by_spec libname +:+ "-" +:+ str_of_int bitsize
  ∧ re_sub_soname "libfoo.so.1.2.3" = "libfoo.so"
  ∧ re_sub_soversion "libfoo.so.1.2.3" = "1.2.3"
  ∧ re_sub_soversion "libfoo.so" = "libfoo.so".
Proof.
  intros Hl.
  assert (Hn : re_sub_soname libname = soname_by_spec libname)
    by (apply sub_so_tail_spec, Hl).
  assert (Hv : re_sub_soversion libname = version_by_spec libname).
  { unfold re_sub_soversion, version_by_spec.
    rewrite (after_last_so_dot_spec libname Hl).
    destruct (Str.rfind ".so." libname); reflexivity. }
  repeat split; try done.
  - intros Hnone. rewrite Hv. unfold version_by_spec. by rewrite Hnone.
  - unfold library_key. by rewrite Hn, Hv.
Qed.

Lemma library_key_derivation_witness :
  Str.one_line "libssl.so.3" = true
  ∧ re_sub_soname "libssl.so.3" = "libssl.so"
  ∧ re_sub_soversion "libssl.so.3" = "3".
Proof.
  split; [reflexivity|].
  destruct (library_key_derivation "libssl.so.3" 64 eq_refl) as (Hn & Hv & _).
  split; [rewrite Hn | rewrite Hv]; reflexivity.
Defined.

(** C3, as the specification states it, fails on a name without a version:
    [^.*\.so\.] finds nothing to remove in [libfoo.so], so the version is
    the whole name and not the empty string.  It also fails on a name with
    a line feed after [.so], where the match of [\.so.*] stops: what
    follows the line feed stays in the soname. *)
Lemma unversioned_name_is_its_version :
  re_sub_soversion "libfoo.so" = "libfoo.so"
  ∧ re_sub_soversion "libfoo.so" ≠ EmptyString
  ∧ library_key "libfoo.so" 64 = "libfoo.so=libfoo.so-64"
  ∧ re_sub_soname ("libfoo.so.1" +:+ String "010" "x")
    = "libfoo.so" +:+ String "010" "x".
Proof.
  split; [reflexivity|]. split; [discriminate|].
  split; vm_compute; reflexivity.
Qed.

(** ** The scanner *)

Lemma for_each_ext {A S : Type} (f g : A → S → Result S) (xs : list A) (s : S) :
  (∀ x s', f x s' = g x s') → for_each f xs s = for_each g xs s.
Proof.
  intros Hfg. revert s. induction xs as [|x xs IH]; intros s; [done|].
  cbn [for_each]. rewrite Hfg. destruct (g x s); cbn [bind]; auto.
Qed.

Lemma match_bitsize_32 (a : option Architecture) : match_bitsize 32 a = Some i686.
Proof. reflexivity. Qed.

Lemma match_bitsize_64 (a : option Architecture) : match_bitsize 64 a = Some x86_64.
Proof. reflexivity. Qed.

(** C1, on the code.  A needed-library tag whose name is in the override
    map ends the iteration at line 64: the path taken from the map is
    assigned and never used, and neither [libdepends] nor [liblist]
    changes. *)
Theorem override_skips_requirement (os : OsPath) (cache : LibCache) (bitsize : Z)
    (filename libname path : string) (custom_libs : gmap string string)
    (architecture : option Architecture) (m : ScanMaps) :
  custom_libs !! libname = Some path →
  scan_tag os cache bitsize filename custom_libs (DT_NEEDED libname) (architecture, m)
  = Ok (match_bitsize bitsize architecture, m).
Proof. intros H. unfold scan_tag. cbn [fst snd]. by rewrite H. Qed.

Lemma override_skips_requirement_witness :
  ({["libfoo.so.1" := "/opt/app/lib/libfoo.so.1"]} : gmap string string) !! "libfoo.so.1"
  = Some "/opt/app/lib/libfoo.so.1"
  ∧ scan_tag plain_os {| cache_i686 := ∅; cache_x86_64 := ∅ |} 64 "opt/app/bin/app"
      {["libfoo.so.1" := "/opt/app/lib/libfoo.so.1"]} (DT_NEEDED "libfoo.so.1")
      (None, empty_maps)
    = Ok (Some x86_64, empty_maps).
Proof.
  split; [reflexivity|].
  apply (override_skips_requirement plain_os _ 64 "opt/app/bin/app" "libfoo.so.1"
           "/opt/app/lib/libfoo.so.1").
  reflexivity.
Defined.

(** The same on a whole file: the scan of a binary whose only needed
    library is overridden records nothing. *)
Example overridden_library_not_recorded :
  scanlibs plain_os {| cache_i686 := ∅; cache_x86_64 := ∅ |}
    {| is_elf := true; elfclass := 64;
       sections := [DynamicSection [DT_NEEDED "libfoo.so.1"]];
       rpaths := ["$ORIGIN/../lib"]; runpaths := [] |}
    "opt/app/bin/app" {["libfoo.so.1" := "/opt/app/lib/libfoo.so.1"]} empty_maps
  = Ok empty_maps.
Proof. vm_compute. reflexivity. Qed.



(** C6.  The scan of a 32-bit binary reads the [i686] cache only and the
    scan of a 64-bit binary the [x86-64] cache only: changing the other
    cache changes nothing, and a needed library found in the cache of the
    binary's class gets the path stored there. *)
Theorem cache_lookup_partitioned (os : OsPath) (cache cache' : LibCache) (fileobj : FileObj)
    (filename : string) (custom_libs : gmap string string) (m : ScanMaps) :
  (elfclass fileobj = 32 ∧ cache_i686 cache = cache_i686 cache')
  ∨ (elfclass fileobj = 64 ∧ cache_x86_64 cache = cache_x86_64 cache') →
  scanlibs os cache fileobj filename custom_libs m
  = scanlibs os cache' fileobj filename custom_libs m
  ∧ ∀ libname path architecture m0,
      custom_libs !! libname = None →
      (if elfclass fileobj =? 32 then cache_i686 cache else cache_x86_64 cache) !! libname
      = Some path →
      ∃ a m', scan_tag os cache (elfclass fileobj) filename custom_libs (DT_NEEDED libname)
                (architecture, m0) = Ok (Some a, m')
              ∧ libdepends m' !! library_key libname (elfclass fileobj)
                = Some (Str.drop 1 (abspath os path)).
Proof.
  intros Hclass. split.
  - unfold scanlibs, ELFFile. destruct (negb (is_elf fileobj)); [done|].
    destruct (known_class (elfclass fileobj)); cbn [bind]; [|done]. f_equal.
    apply for_each_ext. intros [|] st; [|done]. cbn [scan_section].
    apply for_each_ext. intros tag st'. unfold scan_tag.
    destruct tag as [| libname |]; try done.
    destruct (custom_libs !! libname); [done|].
    destruct Hclass as [[-> H]|[-> H]]; unfold resolve_libpath;
      rewrite ?match_bitsize_32, ?match_bitsize_64; cbn [cache_of]; by rewrite H.
  - intros libname path architecture m0 Hc Hl.
    unfold scan_tag, resolve_libpath. cbn [fst snd]. rewrite Hc.
    destruct Hclass as [[E _]|[E _]]; rewrite E in Hl |- *; cbn in Hl;
      rewrite ?match_bitsize_32, ?match_bitsize_64; cbn [cache_of]; rewrite Hl;
      cbn [bind]; do 2 eexists; (split; [reflexivity|]);
      cbn [libdepends]; apply lookup_insert_eq.
Qed.

Lemma cache_lookup_partitioned_witness :
  let cache := {| cache_i686 := {["libssl.so.3" := "/usr/lib32/libssl.so.3"]};
                  cache_x86_64 := {["libssl.so.3" := "/usr/lib/libssl.so.3"]} |} in
  let cache' := {| cache_i686 := ∅;
                   cache_x86_64 := {["libssl.so.3" := "/usr/lib/libssl.so.3"]} |} in
  let fileobj := {| is_elf := true; elfclass := 64;
                    sections := [DynamicSection [DT_NEEDED "libssl.so.3"]];
                    rpaths := []; runpaths := [] |} in
  ((elfclass fileobj = 32 ∧ cache_i686 cache = cache_i686 cache')
   ∨ (elfclass fileobj = 64 ∧ cache_x86_64 cache = cache_x86_64 cache'))
  ∧ scanlibs plain_os cache fileobj "usr/bin/app" ∅ empty_maps
    = scanlibs plain_os cache' fileobj "usr/bin/app" ∅ empty_maps.
Proof.
  intros cache cache' fileobj.
  assert (H : (elfclass fileobj = 32 ∧ cache_i686 cache = cache_i686 cache')
              ∨ (elfclass fileobj = 64 ∧ cache_x86_64 cache = cache_x86_64 cache'))
    by (right; split; reflexivity).
  split; [exact H|].
  exact (proj1 (cache_lookup_partitioned plain_os cache cache' fileobj "usr/bin/app" ∅
                  empty_maps H)).
Defined.

(** The scenario of the specification: both caches know [libssl.so.3], and
    the 64-bit requirement gets the path of the [x86-64] cache. *)
Example libssl_64_bit :
  bind (scanlibs plain_os
          {| cache_i686 := {["libssl.so.3" := "/usr/lib32/libssl.so.3"]};
             cache_x86_64 := {["libssl.so.3" := "/usr/lib/libssl.so.3"]} |}
          {| is_elf := true; elfclass := 64;
             sections := [DynamicSection [DT_NEEDED "libssl.so.3"]];
             rpaths := []; runpaths := [] |}
          "usr/bin/app" ∅ empty_maps)
       (λ m, Ok (libdepends m !! "libssl.so=3-64"))
  = Ok (Some "usr/lib/libssl.so.3").
Proof. vm_compute. reflexivity. Qed.

Lemma for_each_total {A S : Type} (body : A → S → Result S) (xs : list A) (s : S) :
  (∀ x s0, ∃ s1, body x s0 = Ok s1) → ∃ s', for_each body xs s = Ok s'.
Proof.
  intros Hbody. revert s. induction xs as [|x xs IH]; intros s; [by eexists|].
  cbn [for_each]. destruct (Hbody x s) as [s1 ->]. cbn [bind]. apply IH.
Qed.

Lemma scan_tag_known_class (os : OsPath) (cache : LibCache) (bitsize : Z) (filename : string)
    (custom_libs : gmap string string) (tag : Tag) (architecture : option Architecture)
    (m : ScanMaps) :
  known_class bitsize = true →
  ∃ a m', match_bitsize bitsize architecture = Some a
          ∧ scan_tag os cache bitsize filename custom_libs tag (architecture, m)
            = Ok (Some a, m').
Proof.
  intros Hb. unfold scan_tag, resolve_libpath. cbn [fst snd].
  assert (∃ a, match_bitsize bitsize architecture = Some a) as [a ->].
  { unfold known_class in Hb. unfold match_bitsize.
    destruct (bitsize =? 32); [by eexists|]. destruct (bitsize =? 64); [by eexists|done]. }
  exists a. destruct tag as [soname | libname | d]; try by eexists.
  destruct (custom_libs !! libname); [by eexists|].
  destruct (cache_of cache a !! libname); cbn [bind]; by eexists.
Qed.

(** C5.  A file whose word size is neither 32 nor 64 never reaches the
    loop over the tags: [ELFFile] raises [ELFError] at line 40, so the file
    is refused outright and no architecture label is given to it.  With a
    word size of 32 or 64 the [match] of line 46 binds a label at every
    tag, whatever the local held before, and the tag is processed; so the
    read of [architecture] at line 66 never finds the local unbound. *)
Theorem word_size_classes (os : OsPath) (cache : LibCache) (fileobj : FileObj)
    (filename : string) (custom_libs : gmap string string) (m : ScanMaps) :
  is_elf fileobj = true →
  (known_class (elfclass fileobj) = false →
   scanlibs os cache fileobj filename custom_libs m = Raise ELFError)
  ∧ (known_class (elfclass fileobj) = true →
     ∀ tag architecture m0,
       ∃ a m1, match_bitsize (elfclass fileobj) architecture = Some a
               ∧ scan_tag os cache (elfclass fileobj) filename custom_libs tag
                   (architecture, m0) = Ok (Some a, m1))
  ∧ ∀ var, scanlibs os cache fileobj filename custom_libs m ≠ Raise (UnboundLocalError var).
Proof.
  intros Helf. unfold scanlibs, ELFFile. rewrite Helf. cbn [negb].
  destruct (known_class (elfclass fileobj)) eqn:Hb; cbn [bind].
  - split; [done|]. split.
    + intros _ tag architecture m0. by apply scan_tag_known_class.
    + intros var.
      destruct (for_each_total (scan_section os cache (elfclass fileobj) filename custom_libs)
                  (sections fileobj) (None, m)) as [st' ->]; [|done].
      intros [tags|] st0; [|by eexists]. cbn [scan_section].
      apply for_each_total. intros tag [a0 m0].
      destruct (scan_tag_known_class os cache (elfclass fileobj) filename custom_libs tag
                  a0 m0 Hb) as (a & m1 & _ & ->).
      by eexists.
  - split; [done|]. split; [done|]. by intros var.
Qed.

Lemma word_size_classes_witness :
  let app := {| is_elf := true; elfclass := 64;
                sections := [DynamicSection [DT_NEEDED "libbar.so.5"]];
                rpaths := []; runpaths := [] |} in
  let odd := {| is_elf := true; elfclass := 0;
                sections := [DynamicSection [DT_NEEDED "libbar.so.5"]];
                rpaths := []; runpaths := [] |} in
  is_elf app = true ∧ is_elf odd = true
  ∧ scanlibs plain_os {| cache_i686 := ∅; cache_x86_64 := ∅ |} odd "usr/bin/app" ∅ empty_maps
    = Raise ELFError
  ∧ ∃ a m1, scan_tag plain_os {| cache_i686 := ∅; cache_x86_64 := ∅ |} (elfclass app)
              "usr/bin/app" ∅ (DT_NEEDED "libbar.so.5") (None, empty_maps) = Ok (Some a, m1).
Proof.
  intros app odd. split; [reflexivity|]. split; [reflexivity|]. split.
  - exact (proj1 (word_size_classes plain_os {| cache_i686 := ∅; cache_x86_64 := ∅ |} odd
                    "usr/bin/app" ∅ empty_maps eq_refl) eq_refl).
  - destruct (proj1 (proj2 (word_size_classes plain_os {| cache_i686 := ∅; cache_x86_64 := ∅ |}
                              app "usr/bin/app" ∅ empty_maps eq_refl))
                eq_refl (DT_NEEDED "libbar.so.5") None empty_maps) as (a & m1 & _ & H).
    by exists a, m1.
Defined.

(** ** The resolver *)

Lemma so_end_match_always (s : string) : truthy (so_end_match s) = true.
Proof. reflexivity. Qed.

(** The pattern [(\.\d+)*] matches the empty prefix of any text, so the
    test of line 111 is the prefix test alone. *)
Lemma lib_matches_startswith (j ap : string) : lib_matches j ap = Str.startswith ap j.
Proof.
  unfold lib_matches. rewrite so_end_match_always, andb_true_r.
  destruct (String.eqb j ap) eqn:E; [|done]. by rewrite (eqb_startswith _ _ E).
Qed.

Lemma record_owner_idemp (pkg : Package) (k : string) (v : option string * option string * bool) :
  record_owner pkg k (record_owner pkg k v) = record_owner pkg k v.
Proof. unfold record_owner. by destruct (mem k (pkg_provides pkg)). Qed.

Section Resolver.

Context (libdepends actualpath : gmap string string).

Lemma key_view_visit_key (pkg : Package) (j : string) (st : Found) (k' k : string) :
  key_view k (visit_key libdepends actualpath pkg j st k')
  = if bool_decide (k' = k) && lib_matches j (str_at actualpath k)
    then record_owner pkg k (key_view k st)
    else key_view k st.
Proof.
  unfold visit_key. case_bool_decide as Hk; cbn [andb].
  - subst k'. destruct (lib_matches j (str_at actualpath k)); [|done].
    unfold key_view, record_owner. cbn [libdependlist missing_provides foundlibs fst snd].
    assert (Hin : k ∈ foundlibs st ∪ {[k]}) by set_solver.
    rewrite (bool_decide_eq_true_2 _ Hin).
    destruct (mem k (pkg_provides pkg)); by rewrite lookup_insert_eq.
  - destruct (lib_matches j (str_at actualpath k')); [|done].
    unfold key_view. cbn [libdependlist missing_provides foundlibs].
    f_equal; [f_equal|].
    + destruct (mem k' (pkg_provides pkg)); [by rewrite lookup_insert_ne|done].
    + destruct (mem k' (pkg_provides pkg)); [done|by rewrite lookup_insert_ne].
    + apply bool_decide_ext. rewrite elem_of_union, elem_of_singleton.
      intuition congruence.
Qed.

Lemma key_view_visit_keys (pkg : Package) (j : string) (ks : list string) (st : Found) (k : string) :
  key_view k (foldl (visit_key libdepends actualpath pkg j) st ks)
  = if bool_decide (k ∈ ks) && lib_matches j (str_at actualpath k)
    then record_owner pkg k (key_view k st)
    else key_view k st.
Proof.
  revert st. induction ks as [|k' ks IH]; intros st.
  - cbn [foldl]. rewrite bool_decide_eq_false_2; [done|]. by intros ?%elem_of_nil.
  - cbn [foldl]. rewrite IH, key_view_visit_key.
    destruct (lib_matches j (str_at actualpath k)); rewrite ?andb_false_r, ?andb_true_r; [|done].
    destruct (decide (k' = k)) as [->|Hne].
    + rewrite (bool_decide_eq_true_2 (k = k)) by done.
      rewrite (bool_decide_eq_true_2 (k ∈ k :: ks)) by set_solver.
      rewrite record_owner_idemp. by destruct (bool_decide (k ∈ ks)).
    + rewrite (bool_decide_eq_false_2 (k' = k) Hne).
      apply (f_equal (λ b : bool, if b then _ else _)).
      apply bool_decide_ext. rewrite elem_of_cons. intuition congruence.
Qed.

Lemma key_view_visit_file (ks : list string) (pkg : Package) (st : Found)
    (f : string * Z * Z) (k : string) :
  key_view k (visit_file libdepends actualpath ks pkg st f)
  = if bool_decide (k ∈ ks) && file_hits actualpath k f
    then record_owner pkg k (key_view k st)
    else key_view k st.
Proof.
  unfold visit_file, file_hits. destruct (is_so_search f.1.1); cbn [negb andb].
  - apply key_view_visit_keys.
  - by rewrite andb_false_r.
Qed.

Lemma key_view_visit_files (ks : list string) (pkg : Package) (fs : list (string * Z * Z))
    (st : Found) (k : string) :
  key_view k (foldl (visit_file libdepends actualpath ks pkg) st fs)
  = if bool_decide (k ∈ ks) && existsb (file_hits actualpath k) fs
    then record_owner pkg k (key_view k st)
    else key_view k st.
Proof.
  revert st. induction fs as [|f fs IH]; intros st.
  - cbn [foldl existsb]. by rewrite andb_false_r.
  - cbn [foldl existsb]. rewrite IH, key_view_visit_file.
    destruct (bool_decide (k ∈ ks)); cbn [andb]; [|done].
    destruct (file_hits actualpath k f); cbn [orb]; [|done].
    rewrite record_owner_idemp. by destruct (existsb _ fs).
Qed.

Lemma key_view_visit_package (ks : list string) (st : Found) (pkg : Package) (k : string) :
  key_view k (visit_package libdepends actualpath ks st pkg)
  = if bool_decide (k ∈ ks) && matched_by actualpath k pkg
    then record_owner pkg k (key_view k st)
    else key_view k st.
Proof. apply key_view_visit_files. Qed.

(** The view of a key after the loop over the packages: every matching
    package writes its name over what was there. *)
Lemma key_view_visit_packages (ks : list string) (pkgs : list Package) (st : Found) (k : string) :
  k ∈ ks →
  key_view k (foldl (visit_package libdepends actualpath ks) st pkgs)
  = (from_option Some ((key_view k st).1.1)
       (last (pkg_name <$> List.filter (λ pkg, matched_by actualpath k pkg
                                              && Bool.eqb (mem k (pkg_provides pkg)) true) pkgs)),
     from_option Some ((key_view k st).1.2)
       (last (pkg_name <$> List.filter (λ pkg, matched_by actualpath k pkg
                                              && Bool.eqb (mem k (pkg_provides pkg)) false) pkgs)),
     (key_view k st).2 || existsb (matched_by actualpath k) pkgs).
Proof.
  intros Hk. revert st. induction pkgs as [|pkg pkgs IH]; intros st.
  - cbn. by rewrite orb_false_r.
  - cbn [foldl]. rewrite IH, key_view_visit_package.
    rewrite (bool_decide_eq_true_2 _ Hk). cbn [andb List.filter existsb].
    destruct (matched_by actualpath k pkg); cbn [andb orb]; [|done].
    unfold record_owner. destruct (key_view k st) as [[o1 o2] b]. cbn [fst snd].
    destruct (mem k (pkg_provides pkg)); cbn [Bool.eqb fst snd];
      rewrite fmap_cons, last_cons, orb_true_r;
      repeat match goal with |- context [last ?l] => destruct (last l) end; reflexivity.
Qed.

End Resolver.

Lemma key_view_nothing_found (k : string) : key_view k nothing_found = (None, None, false).
Proof. reflexivity. Qed.

Lemma key_view_find_owners (os : OsPath) (db : PackageDb) (libdepends : gmap string string)
    (k : string) :
  k ∈ dom libdepends →
  key_view k (find_owners os db libdepends)
  = (last (matching_owners os db libdepends k true),
     last (matching_owners os db libdepends k false),
     existsb (matched_by (actualpath_of os libdepends) k) (get_installed_packages db)).
Proof.
  intros Hk. unfold find_owners, matching_owners.
  rewrite key_view_visit_packages by by apply elem_of_elements.
  rewrite key_view_nothing_found. cbn [fst snd orb].
  assert (E : ∀ o : option string, from_option Some None o = o) by (by intros [?|]).
  by rewrite !E.
Qed.

Lemma foundlibs_subset (os : OsPath) (db : PackageDb) (libdepends : gmap string string)
    (k : string) :
  k ∈ foundlibs (find_owners os db libdepends) ↔
  k ∈ dom libdepends
  ∧ existsb (matched_by (actualpath_of os libdepends) k) (get_installed_packages db) = true.
Proof.
  destruct (decide (k ∈ dom libdepends)) as [Hk|Hk].
  - pose proof (key_view_find_owners os db libdepends k Hk) as Hv.
    unfold key_view in Hv. injection Hv as _ _ Hf. rewrite <- Hf. split.
    + intros Hin. split; [done|]. by apply bool_decide_eq_true_2.
    + intros [_ Hin]. by apply bool_decide_eq_true_1 in Hin.
  - split; [|tauto]. intros Hin. exfalso.
    assert (Hv : key_view k (find_owners os db libdepends) = key_view k nothing_found).
    { unfold find_owners. generalize nothing_found.
      induction (get_installed_packages db) as [|pkg pkgs IH]; intros st; [done|].
      cbn [foldl]. rewrite IH, key_view_visit_package.
      rewrite bool_decide_eq_false_2; [done|]. by rewrite elem_of_elements. }
    unfold key_view in Hv. injection Hv as _ _ Hf.
    rewrite (bool_decide_eq_true_2 _ Hin) in Hf. cbn in Hf. discriminate Hf.
Qed.

(** C2, on the code.  Line 111 accepts [usr/lib/libgpm.so.1abc] for the
    required path [usr/lib/libgpm.so.1], as it accepts
    [usr/lib/libgpm.so.1.19.0]: the pattern of line 98 has no end anchor and
    matches the empty text before [abc].  The rule of the specification
    rejects the first file.  A package that ships only the first file is
    recorded as the owner of the key. *)
Theorem non_numeric_suffix_accepted :
  lib_matches "usr/lib/libgpm.so.1.19.0" "usr/lib/libgpm.so.1" = true
  ∧ matches_by_spec "usr/lib/libgpm.so.1.19.0" "usr/lib/libgpm.so.1" = true
  ∧ lib_matches "usr/lib/libgpm.so.1abc" "usr/lib/libgpm.so.1" = true
  ∧ matches_by_spec "usr/lib/libgpm.so.1abc" "usr/lib/libgpm.so.1" = false
  ∧ so_end_match "abc" = Some O
  ∧ (finddepends plain_os
       {| get_installed_packages :=
            [{| pkg_name := "other"; pkg_files := [("usr/lib/libgpm.so.1abc", 0, 0)];
                pkg_provides := ["libgpm.so=1-64"] |}];
          load_testing_package := λ _, None; load_from_db := λ _, None |}
       {["libgpm.so=1-64" := "usr/lib/libgpm.so.1"]}).1.1.2 !! "libgpm.so=1-64"
    = Some "other".
Proof. repeat split; vm_compute; reflexivity. Qed.

(** C4, as the specification states it, fails: two packages ship the
    required file and declare the key; the owner recorded at the end is the
    second one, not the first. *)
Lemma later_match_replaces_owner :
  (finddepends plain_os
     {| get_installed_packages :=
          [{| pkg_name := "first"; pkg_files := [("usr/lib/libfoo.so.2", 0, 0)];
              pkg_provides := ["libfoo.so=2-64"] |};
           {| pkg_name := "second"; pkg_files := [("usr/lib/libfoo.so.2.0.1", 0, 0)];
              pkg_provides := ["libfoo.so=2-64"] |}];
        load_testing_package := λ _, None; load_from_db := λ _, None |}
     {["libfoo.so=2-64" := "usr/lib/libfoo.so.2"]}).1.1.2 !! "libfoo.so=2-64"
  = Some "second".
Proof. vm_compute. reflexivity. Qed.

(** C4, as the code has it.  Every match writes the package's name over
    the recorded one: for a required key, the owner map holds the last
    package, in the order of the enumeration, that has a matching file and
    declares the key in its provides, and the missing-provides map the last
    package that has a matching file and does not declare it. *)
Theorem last_match_is_owner (os : OsPath) (db : PackageDb) (libdepends : gmap string string)
    (k : string) :
  k ∈ dom libdepends →
  (finddepends os db libdepends).1.1.2 !! k = last (matching_owners os db libdepends k true)
  ∧ (finddepends os db libdepends).2 !! k = last (matching_owners os db libdepends k false).
Proof.
  intros Hk. pose proof (key_view_find_owners os db libdepends k Hk) as Hv.
  unfold key_view in Hv. injection Hv as H1 H2 _. by split.
Qed.

Lemma last_match_is_owner_witness :
  let db := {| get_installed_packages :=
                 [{| pkg_name := "first"; pkg_files := [("usr/lib/libfoo.so.2", 0, 0)];
                     pkg_provides := ["libfoo.so=2-64"] |};
                  {| pkg_name := "second"; pkg_files := [("usr/lib/libfoo.so.2.0.1", 0, 0)];
                     pkg_provides := [] |};
                  {| pkg_name := "third"; pkg_files := [("usr/lib/libfoo.so.2.0.1", 0, 0)];
                     pkg_provides := ["libfoo.so=2-64"] |}];
               load_testing_package := λ _, None; load_from_db := λ _, None |} in
  let libdepends : gmap string string := {["libfoo.so=2-64" := "usr/lib/libfoo.so.2"]} in
  "libfoo.so=2-64" ∈ dom libdepends
  ∧ (finddepends plain_os db libdepends).1.1.2 !! "libfoo.so=2-64" = Some "third"
  ∧ (finddepends plain_os db libdepends).2 !! "libfoo.so=2-64" = Some "second".
Proof.
  intros db libdepends.
  assert (Hk : "libfoo.so=2-64" ∈ dom libdepends).
  { apply elem_of_dom. exists "usr/lib/libfoo.so.2". reflexivity. }
  split; [exact Hk|].
  destruct (last_match_is_owner plain_os db libdepends "libfoo.so=2-64" Hk) as [H1 H2].
  split; [rewrite H1 | rewrite H2]; reflexivity.
Defined.

(** ** The reporter *)

Lemma emit_emit (e1 w1 n1 e2 w2 n2 : list Msg) (r : Rule) :
  emit e2 w2 n2 (emit e1 w1 n1 r) = emit (e1 ++ e2) (w1 ++ w2) (n1 ++ n2) r.
Proof. unfold emit. cbn [errors warnings infos]. by rewrite !app_assoc. Qed.

Lemma emit_nil (r : Rule) : emit [] [] [] r = r.
Proof. destruct r. unfold emit. cbn [errors warnings infos]. by rewrite !app_nil_r. Qed.

Lemma foldl_emit {A : Type} (body : Rule → A → Rule) (E W N : A → list Msg)
    (l : list A) (r : Rule) :
  (∀ r' x, body r' x = emit (E x) (W x) (N x) r') →
  foldl body r l = emit (flat_map E l) (flat_map W l) (flat_map N l) r.
Proof.
  intros Hbody. revert r. induction l as [|x l IH]; intros r.
  - cbn. by rewrite emit_nil.
  - cbn [foldl flat_map]. by rewrite IH, Hbody, emit_emit.
Qed.

Lemma flat_map_nil {A B : Type} (l : list A) : flat_map (λ _ : A, @nil B) l = [].
Proof. by induction l. Qed.

Lemma flat_map_singleton {A B : Type} (f : A → B) (l : list A) :
  flat_map (λ x, [f x]) l = f <$> l.
Proof. induction l as [|x l IH]; [done|]. cbn. by rewrite IH. Qed.

Lemma flat_map_filter {A B : Type} (p : A → bool) (f : A → B) (l : list A) :
  flat_map (λ x, if p x then [f x] else []) l = f <$> List.filter p l.
Proof.
  induction l as [|x l IH]; [done|]. cbn [flat_map List.filter].
  rewrite IH. by destruct (p x).
Qed.

Lemma add_error_emit (msg : Msg) (r : Rule) : add_error msg r = emit [msg] [] [] r.
Proof. unfold add_error, emit. by rewrite !app_nil_r. Qed.

Lemma add_warning_emit (msg : Msg) (r : Rule) : add_warning msg r = emit [] [msg] [] r.
Proof. unfold add_warning, emit. by rewrite !app_nil_r. Qed.

Lemma add_info_emit (msg : Msg) (r : Rule) : add_info msg r = emit [] [] [msg] r.
Proof. unfold add_info, emit. by rewrite !app_nil_r. Qed.

Lemma extend_warnings_emit (msgs : list Msg) (r : Rule) :
  extend_warnings msgs r = emit [] msgs [] r.
Proof. unfold extend_warnings, emit. by rewrite !app_nil_r. Qed.

Lemma extend_infos_emit (msgs : list Msg) (r : Rule) : extend_infos msgs r = emit [] [] msgs r.
Proof. unfold extend_infos, emit. by rewrite !app_nil_r. Qed.

Lemma soname_dependency_emit (m : ScanMaps) (pkginfo : PkgInfo) (l : gmap string string)
    (r : Rule) (i : string) :
  soname_dependency m pkginfo l r i = emit [] [] [soname_info m pkginfo l i] r.
Proof.
  unfold soname_dependency, soname_info. rewrite <- add_info_emit.
  destruct (mem i (depends pkginfo)); [done|]. by destruct (mem i (optdepends pkginfo)).
Qed.

Lemma declared_depend_emit (l : gmap string string) (r : Rule) (i : string) :
  declared_depend l r i = emit (depend_errors i) (depend_warnings l i) [] r.
Proof.
  unfold declared_depend, depend_errors, depend_warnings.
  destruct (Str.contains ".so" i && _); destruct (Str.endswith ".so" i);
    rewrite ?add_error_emit, ?add_warning_emit, ?emit_emit; by rewrite ?emit_nil.
Qed.

Lemma provided_library_emit (m : ScanMaps) (pkginfo : PkgInfo) (r : Rule) (i : string) :
  provided_library m pkginfo r i = emit [] [] [provided_info m pkginfo i] r.
Proof.
  unfold provided_library, provided_info. rewrite <- add_info_emit.
  by destruct (mem i (provides pkginfo)).
Qed.

Lemma declared_provide_emit (m : ScanMaps) (r : Rule) (i : string) :
  declared_provide m r i = emit (provide_errors i) (provide_warnings m i) [] r.
Proof.
  unfold declared_provide, provide_errors, provide_warnings.
  destruct (Str.contains ".so" i && _); destruct (Str.endswith ".so" i);
    rewrite ?add_error_emit, ?add_warning_emit, ?emit_emit; by rewrite ?emit_nil.
Qed.

Lemma testing_release_emit (db : PackageDb) (r : Rule) (i : string) :
  testing_release db r i = emit [] (testing_warnings db i) [] r.
Proof.
  unfold testing_release, testing_warnings.
  destruct (load_testing_package db i) as [p|], (load_from_db db i) as [q|];
    rewrite ?emit_nil; try done.
  destruct (String.eqb p q); by rewrite ?add_warning_emit, ?emit_nil.
Qed.

Lemma link_level_emit (m : ScanMaps) (items : list (string * gset string))
    (st : Rule * PkgInfo) :
  (foldl (link_level m) st items).1
  = emit [] [] ((λ item : string * gset string, link_level_dependence item.1 item.2) <$> items)
         st.1.
Proof.
  revert st. induction items as [|[pkg libraries] items IH]; intros st.
  - cbn. by rewrite emit_nil.
  - cbn [foldl]. rewrite IH. unfold link_level. cbn [fst snd].
    by rewrite add_info_emit, emit_emit, fmap_cons.
Qed.

(** The lists of the rule object after the part of [analyze] that follows
    the scan. *)
Lemma report_rule (os : OsPath) (db : PackageDb) (pkginfo : PkgInfo) (m : ScanMaps)
    (rule : Rule) :
  let st := find_owners os db (libdepends m) in
  let libdependlist := drop_internal (name pkginfo) (libdependlist st) in
  let missing_provides := drop_internal (name pkginfo) (missing_provides st) in
  (report os db pkginfo m rule).1
  = emit
      (flat_map depend_errors (depends pkginfo) ++ flat_map provide_errors (provides pkginfo))
      ((orphan_warning m <$> orphans_of (libdepends m) st)
       ++ flat_map (depend_warnings libdependlist) (depends pkginfo)
       ++ flat_map (provide_warnings m) (provides pkginfo)
       ++ flat_map (testing_warnings db) (elements (dom (dependlist st))))
      (new_infos m pkginfo (dependlist st) libdependlist missing_provides)
      rule.
Proof.
  intros st libdependlist missing_provides.
  unfold report, finddepends. fold st. cbv zeta. cbn [fst snd].
  fold libdependlist missing_provides.
  pose proof (link_level_emit m (map_to_list (dependlist st))
                (extend_infos
                   (missing_provides_info m missing_provides <$> elements (dom missing_provides))
                   (extend_warnings (orphan_warning m <$> orphans_of (libdepends m) st) rule),
                 pkginfo)) as Hl.
  unfold missing_provides_info, orphan_warning in Hl |- *.
  destruct (foldl (link_level m) _ _) as [r3 pkginfo'] eqn:E. cbn [fst snd] in Hl |- *. subst r3.
  rewrite (foldl_emit (testing_release db) _ _ _ _ _ (testing_release_emit db)).
  rewrite add_info_emit.
  rewrite (foldl_emit (declared_provide m) _ _ _ _ _ (declared_provide_emit m)).
  rewrite (foldl_emit (provided_library m pkginfo) _ _ _ _ _ (provided_library_emit m pkginfo)).
  rewrite add_info_emit.
  rewrite (foldl_emit (declared_depend libdependlist) _ _ _ _ _
             (declared_depend_emit libdependlist)).
  rewrite (foldl_emit (soname_dependency m pkginfo libdependlist) _ _ _ _ _
             (soname_dependency_emit m pkginfo libdependlist)).
  rewrite extend_infos_emit, extend_warnings_emit, !emit_emit.
  rewrite !flat_map_nil, !flat_map_singleton. unfold new_infos.
  cbn [app]. rewrite ?app_nil_r, <- ?app_assoc. reflexivity.
Qed.

Lemma analyze_after_scan (os : OsPath) (db : PackageDb) (ldconfig : list (option LdLine))
    (libcache0 : LibCache) (rule : Rule) (pkginfo : PkgInfo) (tar : list TarEntry)
    (m : ScanMaps) :
  scan_package os (filllibcache ldconfig libcache0) tar = Ok m →
  analyze os db ldconfig libcache0 rule pkginfo tar = Ok (report os db pkginfo m rule).
Proof. intros H. unfold analyze. by rewrite H. Qed.

Lemma existsb_false_iff {A : Type} (f : A → bool) (l : list A) :
  existsb f l = false ↔ ∀ x, x ∈ l → f x = false.
Proof.
  induction l as [|y l IH]; cbn [existsb].
  - split; [|done]. by intros _ x ?%elem_of_nil.
  - rewrite orb_false_iff, IH. split.
    + intros [Hy Hl] x [->|Hx]%elem_of_cons; auto.
    + intros H. split; [|intros x Hx]; apply H;
        [apply list_elem_of_here | by apply list_elem_of_further].
Qed.

Lemma filter_no_package_orphans (m : ScanMaps) (l : list string) :
  List.filter is_no_package (orphan_warning m <$> l) = orphan_warning m <$> l.
Proof. induction l as [|x l IH]; [done|]. cbn. by rewrite IH. Qed.

Lemma filter_no_package_flat_map {A : Type} (W : A → list Msg) (l : list A) :
  (∀ x, List.filter is_no_package (W x) = []) →
  List.filter is_no_package (flat_map W l) = [].
Proof.
  intros HW. induction l as [|x l IH]; [done|].
  cbn [flat_map]. by rewrite List.filter_app, HW, IH.
Qed.

(** C7.  A key is in the orphan list exactly when it is required and no
    file of any installed package matched it; the list has no key twice;
    and the [library-no-package-associated] warnings [analyze] adds are,
    one for one and in the order of the list, those of the orphans, each
    with the resolved path of its key and the files that require that
    path. *)
Theorem orphans_reported (os : OsPath) (db : PackageDb) (ldconfig : list (option LdLine))
    (libcache0 : LibCache) (rule : Rule) (pkginfo : PkgInfo) (tar : list TarEntry)
    (m : ScanMaps) :
  scan_package os (filllibcache ldconfig libcache0) tar = Ok m →
  let orphans := (finddepends os db (libdepends m)).1.2 in
  (∀ k, k ∈ orphans ↔
        k ∈ dom (libdepends m)
        ∧ ∀ pkg, pkg ∈ get_installed_packages db →
                 matched_by (actualpath_of os (libdepends m)) k pkg = false)
  ∧ NoDup orphans
  ∧ ∃ rule' pkginfo',
      analyze os db ldconfig libcache0 rule pkginfo tar = Ok (rule', pkginfo')
      ∧ List.filter is_no_package (warnings rule')
        = List.filter is_no_package (warnings rule)
          ++ ((λ i, library_no_package_associated (str_at (libdepends m) i)
                      (set_at (liblist m) (str_at (libdepends m) i))) <$> orphans).
Proof.
  intros Hscan orphans. unfold finddepends in orphans. cbn [fst snd] in orphans.
  split; [|split].
  - intros k. unfold orphans, orphans_of.
    rewrite elem_of_elements, elem_of_difference, foundlibs_subset, <- existsb_false_iff.
    destruct (existsb _ _); intuition congruence.
  - apply NoDup_elements.
  - exists (report os db pkginfo m rule).1, (report os db pkginfo m rule).2. split.
    + rewrite (analyze_after_scan _ _ _ _ _ _ _ _ Hscan). by destruct (report _ _ _ _ _).
    + rewrite report_rule. unfold emit. cbn [warnings].
      rewrite !List.filter_app, filter_no_package_orphans.
      rewrite !filter_no_package_flat_map, !app_nil_r; [done|..].
      * intros i. unfold testing_warnings.
        destruct (load_testing_package db i) as [p|], (load_from_db db i) as [q|]; try done.
        by destruct (String.eqb p q).
      * intros i. unfold provide_warnings. by destruct (_ && _).
      * intros i. unfold depend_warnings. by destruct (_ && _).
Qed.

(** C8.  The errors [analyze] adds are the [libdepends-without-version]
    errors of the entries of [depends] that end in [.so], one for each and
    in their order, followed by the [libprovides-without-version] errors of
    the entries of [provides] that end in [.so].  Nothing else enters the
    list: not what was scanned, not what is installed. *)
Theorem versionless_declarations_reported (os : OsPath) (db : PackageDb)
    (ldconfig : list (option LdLine)) (libcache0 : LibCache) (rule : Rule) (pkginfo : PkgInfo)
    (tar : list TarEntry) (m : ScanMaps) :
  scan_package os (filllibcache ldconfig libcache0) tar = Ok m →
  ∃ rule' pkginfo',
    analyze os db ldconfig libcache0 rule pkginfo tar = Ok (rule', pkginfo')
    ∧ errors rule'
      = errors rule
        ++ (libdepends_without_version <$> List.filter (Str.endswith ".so") (depends pkginfo))
        ++ (libprovides_without_version <$> List.filter (Str.endswith ".so") (provides pkginfo)).
Proof.
  intros Hscan.
  exists (report os db pkginfo m rule).1, (report os db pkginfo m rule).2. split.
  - rewrite (analyze_after_scan _ _ _ _ _ _ _ _ Hscan). by destruct (report _ _ _ _ _).
  - rewrite report_rule. unfold emit. cbn [errors].
    unfold depend_errors, provide_errors. by rewrite !flat_map_filter.
Qed.

Lemma detected_about_soname_info (k : string) (m : ScanMaps) (pkginfo : PkgInfo)
    (l : gmap string string) (i : string) :
  detected_about k (soname_info m pkginfo l i) = String.eqb k i.
Proof.
  unfold soname_info. destruct (mem i (depends pkginfo)); [done|].
  by destruct (mem i (optdepends pkginfo)).
Qed.

Lemma drop_internal_own (pkgname : string) (d : gmap string string) (k : string) :
  d !! k = Some pkgname → drop_internal pkgname d !! k = None.
Proof.
  intros H. unfold drop_internal. apply map_lookup_filter_None. right.
  intros x Hx. rewrite H in Hx. injection Hx as <-. cbn. tauto.
Qed.

Lemma drop_internal_dom (pkgname : string) (d : gmap string string) (k : string) :
  d !! k = Some pkgname → k ∉ elements (dom (drop_internal pkgname d)).
Proof.
  intros H. rewrite elem_of_elements, not_elem_of_dom. by apply drop_internal_own.
Qed.

(** C10, as the code has it.  Each of the two maps loses the entries
    whose package is the analysed one before any message is built from it,
    the owner map by the owners and the missing-provides map by the
    packages it records.  So a key the owner map gives to the analysed
    package gets no [libdepends-detected-...] info, and a key the
    missing-provides map records under the analysed package gets no
    [libdepends-missing-provides] info; a key the missing-provides map
    records under another package gets that info, whatever the owner map
    says about the key. *)
Theorem internal_dependencies_filtered (os : OsPath) (db : PackageDb)
    (ldconfig : list (option LdLine)) (libcache0 : LibCache) (rule : Rule) (pkginfo : PkgInfo)
    (tar : list TarEntry) (m : ScanMaps) (k : string) :
  scan_package os (filllibcache ldconfig libcache0) tar = Ok m →
  let libdependlist := (finddepends os db (libdepends m)).1.1.2 in
  let missing_provides := (finddepends os db (libdepends m)).2 in
  ∃ rule' pkginfo',
    analyze os db ldconfig libcache0 rule pkginfo tar = Ok (rule', pkginfo')
    ∧ (libdependlist !! k = Some (name pkginfo) →
       drop_internal (name pkginfo) libdependlist !! k = None
       ∧ ∀ msg, msg ∈ infos rule' → detected_about k msg = true → msg ∈ infos rule)
    ∧ (missing_provides !! k = Some (name pkginfo) →
       drop_internal (name pkginfo) missing_provides !! k = None
       ∧ ∀ msg, msg ∈ infos rule' → missing_about k msg = true → msg ∈ infos rule)
    ∧ (∀ other, missing_provides !! k = Some other → other ≠ name pkginfo →
       libdepends_missing_provides k other (requesters m k) ∈ infos rule').
Proof.
  intros Hscan libdependlist missing_provides.
  unfold finddepends in libdependlist, missing_provides.
  cbn [fst snd] in libdependlist, missing_provides.
  exists (report os db pkginfo m rule).1, (report os db pkginfo m rule).2.
  split; [|split; [|split]].
  - rewrite (analyze_after_scan _ _ _ _ _ _ _ _ Hscan). by destruct (report _ _ _ _ _).
  - intros Hown. split; [by apply drop_internal_own|].
    intros msg Hmsg Hk. rewrite report_rule in Hmsg. unfold emit in Hmsg.
    cbn [infos] in Hmsg. apply elem_of_app in Hmsg as [Hold|Hnew]; [done|exfalso].
    unfold new_infos in Hnew.
    rewrite !elem_of_app, !list_elem_of_fmap, !list_elem_of_singleton in Hnew.
    destruct Hnew as [(i & -> & _)|[(i & -> & _)|[(i & -> & Hi)|[->|[(i & -> & _)| ->]]]]];
      try discriminate Hk.
    + rewrite detected_about_soname_info in Hk. apply String.eqb_eq in Hk. subst i.
      by apply (drop_internal_dom _ _ _ Hown).
    + unfold provided_info in Hk. by destruct (mem i (provides pkginfo)).
  - intros Hown. split; [by apply drop_internal_own|].
    intros msg Hmsg Hk. rewrite report_rule in Hmsg. unfold emit in Hmsg.
    cbn [infos] in Hmsg. apply elem_of_app in Hmsg as [Hold|Hnew]; [done|exfalso].
    unfold new_infos in Hnew.
    rewrite !elem_of_app, !list_elem_of_fmap, !list_elem_of_singleton in Hnew.
    destruct Hnew as [(i & -> & Hi)|[(i & -> & _)|[(i & -> & _)|[->|[(i & -> & _)| ->]]]]];
      try discriminate Hk.
    + cbn in Hk. apply String.eqb_eq in Hk. subst i.
      by apply (drop_internal_dom _ _ _ Hown).
    + unfold soname_info in Hk. destruct (mem i (depends pkginfo)); [done|].
      by destruct (mem i (optdepends pkginfo)).
    + unfold provided_info in Hk. by destruct (mem i (provides pkginfo)).
  - intros other Hother Hne. rewrite report_rule. unfold emit, new_infos. cbn [infos].
    assert (Hl : drop_internal (name pkginfo) missing_provides !! k = Some other)
      by by apply map_lookup_filter_Some.
    rewrite !elem_of_app. right. left.
    apply list_elem_of_fmap. exists k. split.
    + unfold missing_provides_info, str_at. fold missing_provides. by rewrite Hl.
    + apply elem_of_elements, elem_of_dom. by eexists.
Qed.

(** C10, as the specification states it, fails.  The analysed package [P]
    is installed, ships the library its program needs and declares it; the
    package [Q] ships a longer version of the file and does not declare it.
    The owner map gives the key to [P], and the report still has the
    [libdepends-missing-provides] info for the key, naming [Q]. *)
Lemma own_key_reported_missing_provides :
  (finddepends plain_os cross_db (libdepends sample_maps)).1.1.2 !! "libown.so=1-64"
  = Some (name sample_pkginfo)
  ∧ bind (analyze plain_os cross_db sample_ldconfig sample_libcache0 no_rule sample_pkginfo
            sample_tar)
         (λ out, Ok (List.filter (missing_about "libown.so=1-64") (infos out.1)))
    = Ok [libdepends_missing_provides "libown.so=1-64" "Q" {["usr/bin/app"]}].
Proof. split; vm_compute; reflexivity. Qed.

Lemma sample_scan :
  scan_package plain_os (filllibcache sample_ldconfig sample_libcache0) sample_tar
  = Ok sample_maps.
Proof. vm_compute. reflexivity. Defined.

Lemma orphans_reported_witness :
  scan_package plain_os (filllibcache sample_ldconfig sample_libcache0) sample_tar
  = Ok sample_maps
  ∧ ("libbar.so=5-64" ∈ (finddepends plain_os sample_db (libdepends sample_maps)).1.2 ↔
     "libbar.so=5-64" ∈ dom (libdepends sample_maps)
     ∧ ∀ pkg, pkg ∈ get_installed_packages sample_db →
              matched_by (actualpath_of plain_os (libdepends sample_maps))
                "libbar.so=5-64" pkg = false)
  ∧ ∃ rule' pkginfo',
      analyze plain_os sample_db sample_ldconfig sample_libcache0 no_rule sample_pkginfo
        sample_tar = Ok (rule', pkginfo')
      ∧ List.filter is_no_package (warnings rule')
        = [library_no_package_associated "libbar.so.5" {["usr/bin/app"]}].
Proof.
  split; [exact sample_scan|].
  destruct (orphans_reported plain_os sample_db sample_ldconfig sample_libcache0 no_rule
              sample_pkginfo sample_tar sample_maps sample_scan)
    as (Hiff & _ & rule' & pkginfo' & Hrun & Hwarn).
  split; [exact (Hiff "libbar.so=5-64")|].
  exists rule', pkginfo'. split; [exact Hrun|].
  rewrite Hwarn. vm_compute. reflexivity.
Defined.

Lemma versionless_declarations_reported_witness :
  scan_package plain_os (filllibcache sample_ldconfig sample_libcache0) sample_tar
  = Ok sample_maps
  ∧ ∃ rule' pkginfo',
      analyze plain_os sample_db sample_ldconfig sample_libcache0 no_rule sample_pkginfo
        sample_tar = Ok (rule', pkginfo')
      ∧ errors rule'
        = [libdepends_without_version "libbar.so"; libprovides_without_version "libown.so"].
Proof.
  split; [exact sample_scan|].
  destruct (versionless_declarations_reported plain_os sample_db sample_ldconfig
              sample_libcache0 no_rule sample_pkginfo sample_tar sample_maps sample_scan)
    as (rule' & pkginfo' & Hrun & Herr).
  exists rule', pkginfo'. split; [exact Hrun|]. rewrite Herr. reflexivity.
Defined.

Lemma internal_dependencies_filtered_witness :
  scan_package plain_os (filllibcache sample_ldconfig sample_libcache0) sample_tar
  = Ok sample_maps
  ∧ (finddepends plain_os sample_db (libdepends sample_maps)).1.1.2 !! "libown.so=1-64"
    = Some (name sample_pkginfo)
  ∧ ∃ rule' pkginfo',
      analyze plain_os sample_db sample_ldconfig sample_libcache0 no_rule sample_pkginfo
        sample_tar = Ok (rule', pkginfo')
      ∧ ∀ msg, msg ∈ infos rule' → detected_about "libown.so=1-64" msg = true →
               msg ∈ infos no_rule.
Proof.
  split; [exact sample_scan|].
  assert (Hown : (finddepends plain_os sample_db (libdepends sample_maps)).1.1.2
                 !! "libown.so=1-64" = Some (name sample_pkginfo)).
  { vm_compute. reflexivity. }
  split; [exact Hown|].
  destruct (internal_dependencies_filtered plain_os sample_db sample_ldconfig
              sample_libcache0 no_rule sample_pkginfo sample_tar sample_maps
              "libown.so=1-64" sample_scan)
    as (rule' & pkginfo' & Hrun & Hdetected & _ & _).
  exists rule', pkginfo'. split; [exact Hrun|]. exact (proj2 (Hdetected Hown)).
Defined.

(** The sample, end to end: the library of [Q] is reported as detected and
    satisfied, the library [P] ships itself is not reported, and the one
    nobody ships is an orphan. *)
Example sample_report :
  bind (analyze plain_os sample_db sample_ldconfig sample_libcache0 no_rule sample_pkginfo
          sample_tar)
       (λ out, Ok (List.filter (λ msg, detected_about "libfoo.so=2-64" msg
                                      || detected_about "libown.so=1-64" msg) (infos out.1),
                   warnings out.1))
  = Ok ([libdepends_detected_satisfied "libfoo.so=2-64" "Q" {["usr/bin/app"]}],
        [library_no_package_associated "libbar.so.5" {["usr/bin/app"]};
         libdepends_not_needed "libbar.so";
         libprovides_missing "libown.so"]).
Proof. vm_compute. reflexivity. Qed.

(** * Further properties *)

(** ** What the scanner records *)

Lemma for_each_invariant {A S : Type} (P : S → Prop) (body : A → S → Result S)
    (xs : list A) (s s' : S) :
  (∀ x s0 s1, x ∈ xs → P s0 → body x s0 = Ok s1 → P s1) →
  P s → for_each body xs s = Ok s' → P s'.
Proof.
  revert s. induction xs as [|x xs IH]; intros s Hbody Hs Hrun.
  - cbn in Hrun. by injection Hrun as <-.
  - cbn [for_each] in Hrun. destruct (body x s) as [s1|e] eqn:E; [|done].
    cbn [bind] in Hrun. apply (IH s1); [|by eapply Hbody; [apply list_elem_of_here|..]|done].
    intros y s0 s2 Hy. apply Hbody. by apply list_elem_of_further.
Qed.

Lemma elem_of_set_at_add_at (k x k' y : string) (d : gmap string (gset string)) :
  y ∈ set_at (add_at k x d) k' ↔ y ∈ set_at d k' ∨ (k = k' ∧ y = x).
Proof.
  unfold add_at, set_at. destruct (decide (k = k')) as [->|Hne].
  - rewrite lookup_insert_eq. cbn [default from_option]. unfold id.
    rewrite elem_of_union, elem_of_singleton. intuition congruence.
  - rewrite lookup_insert_ne by done. intuition congruence.
Qed.

(** The two things an iteration of the loop over the tags can do to the
    dictionaries. *)
Lemma scan_tag_effect (os : OsPath) (cache : LibCache) (bitsize : Z) (filename : string)
    (custom_libs : gmap string string) (tag : Tag) (a a' : option Architecture)
    (m m' : ScanMaps) :
  scan_tag os cache bitsize filename custom_libs tag (a, m) = Ok (a', m') →
  (libprovides m' = libprovides m
   ∨ (in_lib_dir filename = true
      ∧ ∃ soname, tag = DT_SONAME soname
                  ∧ libprovides m'
                    = add_at (library_key soname bitsize) filename (libprovides m)))
  ∧ ((liblist m' = liblist m ∧ libdepends m' = libdepends m)
     ∨ ∃ libname libpath,
         tag = DT_NEEDED libname ∧ custom_libs !! libname = None
         ∧ liblist m' = add_at libpath filename (liblist m)
         ∧ libdepends m' = <[library_key libname bitsize := libpath]> (libdepends m)).
Proof.
  unfold scan_tag. cbn [fst snd]. destruct tag as [soname | libname | d].
  - intros H. injection H as _ <-. destruct (in_lib_dir filename); cbn; [|by auto].
    split; [right|by left]. split; [done|]. by exists soname.
  - destruct (custom_libs !! libname) eqn:Hc.
    + intros H. injection H as _ <-. by auto.
    + destruct (resolve_libpath os cache _ libname) as [libpath|e]; cbn [bind]; [|done].
      intros H. injection H as _ <-. cbn. split; [by left|right].
      by exists libname, libpath.
  - intros H. injection H as _ <-. by auto.
Qed.

Lemma scanlibs_invariant (Q : ScanMaps → Prop) (os : OsPath) (cache : LibCache)
    (fileobj : FileObj) (filename : string) (custom_libs : gmap string string)
    (m m' : ScanMaps) :
  (is_elf fileobj = true →
   ∀ tag a a' m0 m1, Q m0 →
     scan_tag os cache (elfclass fileobj) filename custom_libs tag (a, m0) = Ok (a', m1) →
     Q m1) →
  Q m → scanlibs os cache fileobj filename custom_libs m = Ok m' → Q m'.
Proof.
  intros Hstep Hm. unfold scanlibs, ELFFile. destruct (is_elf fileobj); cbn [negb].
  - destruct (known_class (elfclass fileobj)); cbn [bind]; [|done].
    destruct (for_each _ (sections fileobj) (None, m)) as [st|e] eqn:E; cbn [bind]; [|done].
    intros H. injection H as <-.
    apply (for_each_invariant (λ st, Q st.2) _ _ _ _) in E; [done| |done].
    intros [tags|] st0 st1 _ H0; cbn [scan_section]; [|by intros [= <-]].
    apply (for_each_invariant (λ st, Q st.2)); [|done].
    intros tag [a0 m0] [a1 m1] _. cbn [snd]. by apply Hstep.
  - by intros [= <-].
Qed.

Lemma scan_package_invariant (Q : ScanMaps → Prop) (os : OsPath) (cache : LibCache)
    (tar : list TarEntry) (m : ScanMaps) :
  (∀ entry custom_libs tag a a' m0 m1,
     entry ∈ tar → elf_entry entry = true → Q m0 →
     scan_tag os cache (elfclass (extractfile entry)) (entry_name entry) custom_libs tag (a, m0)
     = Ok (a', m1) →
     Q m1) →
  Q empty_maps → scan_package os cache tar = Ok m → Q m.
Proof.
  intros Hstep H0. unfold scan_package. apply for_each_invariant; [|done].
  intros entry m0 m1 He Hm0. unfold scan_entry.
  destruct (isfile entry) eqn:Hf; cbn [negb]; [|by intros [= <-]].
  apply scanlibs_invariant; [|done].
  intros Helf tag a a' m2 m3. apply Hstep; [done|]. unfold elf_entry. by rewrite Hf, Helf.
Qed.

(** Every file recorded as providing a library is a regular ELF file of the
    package that lies directly in [usr/lib] or [usr/lib32]. *)
Theorem provisions_from_library_directories (os : OsPath) (cache : LibCache)
    (tar : list TarEntry) (m : ScanMaps) (key filename : string) :
  scan_package os cache tar = Ok m →
  filename ∈ set_at (libprovides m) key →
  in_lib_dir filename = true
  ∧ ∃ entry, entry ∈ tar ∧ elf_entry entry = true ∧ entry_name entry = filename.
Proof.
  intros Hscan. revert key filename.
  apply (scan_package_invariant
           (λ m, ∀ key filename, filename ∈ set_at (libprovides m) key →
                 in_lib_dir filename = true
                 ∧ ∃ entry, entry ∈ tar ∧ elf_entry entry = true ∧ entry_name entry = filename)
           os cache tar m); [|by intros key filename ?%elem_of_empty|done].
  intros entry custom_libs tag a a' m0 m1 He Helf IH Hstep key filename.
  destruct (scan_tag_effect _ _ _ _ _ _ _ _ _ _ Hstep) as [[->|(Hdir & soname & _ & ->)] _];
    [apply IH|].
  rewrite elem_of_set_at_add_at. intros [H|[_ ->]]; [by apply (IH key)|].
  split; [done|]. by exists entry.
Qed.

Lemma provisions_from_library_directories_witness :
  scan_package plain_os (filllibcache sample_ldconfig sample_libcache0) sample_tar
  = Ok sample_maps
  ∧ "usr/lib/libown.so.1" ∈ set_at (libprovides sample_maps) "libown.so=1-64"
  ∧ in_lib_dir "usr/lib/libown.so.1" = true.
Proof.
  split; [exact sample_scan|].
  assert (H : "usr/lib/libown.so.1" ∈ set_at (libprovides sample_maps) "libown.so=1-64").
  { vm_compute. reflexivity. }
  split; [exact H|].
  exact (proj1 (provisions_from_library_directories plain_os _ sample_tar sample_maps
                  "libown.so=1-64" "usr/lib/libown.so.1" sample_scan H)).
Defined.

(** Every file recorded as requiring a path is a regular ELF file of the
    package, and every path recorded for a key has at least one such file:
    no diagnostic about a required library comes with an empty list of
    files. *)
Theorem requesters_recorded (os : OsPath) (cache : LibCache) (tar : list TarEntry)
    (m : ScanMaps) :
  scan_package os cache tar = Ok m →
  (∀ path filename, filename ∈ set_at (liblist m) path →
     ∃ entry, entry ∈ tar ∧ elf_entry entry = true ∧ entry_name entry = filename)
  ∧ (∀ key, key ∈ dom (libdepends m) → ∃ filename, filename ∈ requesters m key).
Proof.
  intros Hscan.
  apply (scan_package_invariant
           (λ m, (∀ path filename, filename ∈ set_at (liblist m) path →
                    ∃ entry, entry ∈ tar ∧ elf_entry entry = true ∧ entry_name entry = filename)
                 ∧ (∀ key, key ∈ dom (libdepends m) → ∃ filename, filename ∈ requesters m key))
           os cache tar m); [| |done].
  - intros entry custom_libs tag a a' m0 m1 He Helf [IH1 IH2] Hstep.
    destruct (scan_tag_effect _ _ _ _ _ _ _ _ _ _ Hstep)
      as [_ [[Hl Hd]|(libname & libpath & _ & _ & Hl & Hd)]]; unfold requesters; rewrite Hl, Hd.
    + by split.
    + split.
      * intros path filename. rewrite elem_of_set_at_add_at.
        intros [H|[_ ->]]; [by eapply IH1|by exists entry].
      * intros key Hkey. unfold str_at.
        destruct (decide (library_key libname (elfclass (extractfile entry)) = key))
          as [<-|Hne].
        -- rewrite lookup_insert_eq. cbn [default]. exists (entry_name entry).
           apply elem_of_set_at_add_at. by right.
        -- rewrite lookup_insert_ne by done. rewrite dom_insert_L in Hkey.
           apply elem_of_union in Hkey as [Hkey%elem_of_singleton|Hkey]; [done|].
           destruct (IH2 key Hkey) as [filename Hf]. exists filename.
           apply elem_of_set_at_add_at. by left.
  - split; [by intros path filename ?%elem_of_empty|].
    by intros key ?%elem_of_empty.
Qed.

Lemma requesters_recorded_witness :
  scan_package plain_os (filllibcache sample_ldconfig sample_libcache0) sample_tar
  = Ok sample_maps
  ∧ "libbar.so=5-64" ∈ dom (libdepends sample_maps)
  ∧ ∃ filename, filename ∈ requesters sample_maps "libbar.so=5-64".
Proof.
  split; [exact sample_scan|].
  assert (H : "libbar.so=5-64" ∈ dom (libdepends sample_maps)).
  { apply elem_of_dom. exists "libbar.so.5". vm_compute. reflexivity. }
  split; [exact H|].
  exact (proj2 (requesters_recorded plain_os _ sample_tar sample_maps sample_scan)
           "libbar.so=5-64" H).
Defined.

(** ** What the resolver finds *)

Lemma elem_of_bool_filter {A : Type} (p : A → bool) (l : list A) (x : A) :
  x ∈ List.filter p l ↔ x ∈ l ∧ p x = true.
Proof. rewrite !list_elem_of_In. apply filter_In. Qed.

Lemma last_filter_none {A B : Type} (f : A → B) (p : A → bool) (l : list A) :
  last (f <$> List.filter p l) = None ↔ ∀ x, x ∈ l → p x = false.
Proof.
  rewrite last_None. split.
  - intros Hnil x Hx. destruct (p x) eqn:E; [|done].
    assert (Hin : x ∈ List.filter p l) by by apply elem_of_bool_filter.
    destruct (List.filter p l); [by apply elem_of_nil in Hin|done].
  - intros Hall. destruct (List.filter p l) as [|x l'] eqn:E; [done|].
    assert (Hin : x ∈ List.filter p l) by (rewrite E; apply list_elem_of_here).
    apply elem_of_bool_filter in Hin as [Hx Hp]. by rewrite (Hall x Hx) in Hp.
Qed.

Lemma key_view_not_required (os : OsPath) (db : PackageDb) (libdepends : gmap string string)
    (k : string) :
  k ∉ dom libdepends → key_view k (find_owners os db libdepends) = (None, None, false).
Proof.
  intros Hk. rewrite <- (key_view_nothing_found k). unfold find_owners.
  generalize nothing_found.
  induction (get_installed_packages db) as [|pkg pkgs IH]; intros st; [done|].
  cbn [foldl]. rewrite IH, key_view_visit_package.
  rewrite bool_decide_eq_false_2; [done|]. by rewrite elem_of_elements.
Qed.

(** The resolver sorts every key it is given into exactly one of two
    groups: a key is an orphan exactly when it is required and neither the
    owner map nor the missing-provides map has an entry for it, and the two
    maps have entries for required keys only. *)
Theorem required_keys_partition (os : OsPath) (db : PackageDb)
    (libdepends : gmap string string) (k : string) :
  let libdependlist := (finddepends os db libdepends).1.1.2 in
  let orphans := (finddepends os db libdepends).1.2 in
  let missing_provides := (finddepends os db libdepends).2 in
  (k ∈ orphans ↔
   k ∈ dom libdepends ∧ libdependlist !! k = None ∧ missing_provides !! k = None)
  ∧ (is_Some (libdependlist !! k) ∨ is_Some (missing_provides !! k) → k ∈ dom libdepends).
Proof.
  unfold finddepends. cbn [fst snd]. unfold orphans_of.
  rewrite elem_of_elements, elem_of_difference.
  destruct (decide (k ∈ dom libdepends)) as [Hk|Hk].
  - pose proof (key_view_find_owners os db libdepends k Hk) as Hv.
    unfold key_view in Hv. injection Hv as -> -> _. split; [|done].
    rewrite foundlibs_subset. unfold matching_owners. rewrite !last_filter_none.
    assert (Hex : existsb (matched_by (actualpath_of os libdepends) k)
                    (get_installed_packages db) = false ↔
                  (∀ pkg, pkg ∈ get_installed_packages db →
                     matched_by (actualpath_of os libdepends) k pkg
                     && Bool.eqb (mem k (pkg_provides pkg)) true = false)
                  ∧ (∀ pkg, pkg ∈ get_installed_packages db →
                       matched_by (actualpath_of os libdepends) k pkg
                       && Bool.eqb (mem k (pkg_provides pkg)) false = false)).
    { rewrite existsb_false_iff. split.
      - intros Hnone. split; intros pkg Hpkg; by rewrite (Hnone pkg Hpkg).
      - intros [H1 H2] pkg Hpkg. specialize (H1 pkg Hpkg). specialize (H2 pkg Hpkg).
        destruct (matched_by _ k pkg); [|done]. by destruct (mem k (pkg_provides pkg)). }
    rewrite <- Hex. destruct (existsb _ _); intuition congruence.
  - pose proof (key_view_not_required os db libdepends k Hk) as Hv.
    unfold key_view in Hv. injection Hv as -> -> _. split; [tauto|].
    by intros [[? ?]|[? ?]].
Qed.

(** A recorded owner is the name of an installed package that has a file
    matching the key; it sits in the owner map only if that package
    declares the key in its provides, and in the missing-provides map only
    if the package does not. *)
Theorem recorded_owner_matches (os : OsPath) (db : PackageDb)
    (libdepends : gmap string string) (k owner : string) (declared : bool) :
  (if declared then (finddepends os db libdepends).1.1.2 else (finddepends os db libdepends).2)
    !! k = Some owner →
  k ∈ dom libdepends
  ∧ ∃ pkg, pkg ∈ get_installed_packages db
           ∧ pkg_name pkg = owner
           ∧ matched_by (actualpath_of os libdepends) k pkg = true
           ∧ mem k (pkg_provides pkg) = declared.
Proof.
  intros Hown.
  assert (Hk : k ∈ dom libdepends).
  { destruct (decide (k ∈ dom libdepends)) as [Hk|Hk]; [done|exfalso].
    pose proof (key_view_not_required os db libdepends k Hk) as Hv.
    unfold key_view in Hv. injection Hv as H1 H2 _.
    unfold finddepends in Hown. cbn [fst snd] in Hown.
    destruct declared; congruence. }
  split; [done|].
  pose proof (key_view_find_owners os db libdepends k Hk) as Hv.
  unfold key_view in Hv. injection Hv as H1 H2 _.
  assert (Hlast : last (matching_owners os db libdepends k declared) = Some owner).
  { unfold finddepends in Hown. cbn [fst snd] in Hown.
    destruct declared; [by rewrite <- H1|by rewrite <- H2]. }
  apply last_Some_elem_of in Hlast. unfold matching_owners in Hlast.
  apply list_elem_of_fmap in Hlast as (pkg & -> & Hpkg).
  apply elem_of_bool_filter in Hpkg as [Hin [Hm Hd]%andb_true_iff].
  exists pkg. repeat split; try done. by apply Bool.eqb_prop.
Qed.

Lemma recorded_owner_matches_witness :
  (finddepends plain_os sample_db (libdepends sample_maps)).1.1.2 !! "libfoo.so=2-64"
  = Some "Q"
  ∧ ∃ pkg, pkg ∈ get_installed_packages sample_db
           ∧ pkg_name pkg = "Q"
           ∧ matched_by (actualpath_of plain_os (libdepends sample_maps))
               "libfoo.so=2-64" pkg = true
           ∧ mem "libfoo.so=2-64" (pkg_provides pkg) = true.
Proof.
  assert (H : (finddepends plain_os sample_db (libdepends sample_maps)).1.1.2
              !! "libfoo.so=2-64" = Some "Q").
  { vm_compute. reflexivity. }
  split; [exact H|].
  exact (proj2 (recorded_owner_matches plain_os sample_db (libdepends sample_maps)
                  "libfoo.so=2-64" "Q" true H)).
Defined.

Lemma foldl_accumulates {A S : Type} (V : S → Prop) (E : A → Prop) (f : S → A → S)
    (l : list A) (s : S) :
  (∀ s0 x, V (f s0 x) ↔ V s0 ∨ E x) →
  V (foldl f s l) ↔ V s ∨ ∃ x, x ∈ l ∧ E x.
Proof.
  intros Hf. revert s. induction l as [|y l IH]; intros s; cbn [foldl].
  - split; [by left|]. intros [?|(x & Hx & _)]; [done|]. by apply elem_of_nil in Hx.
  - rewrite IH, Hf. split.
    + intros [[?|?]|(x & Hx & ?)]; [by left| |].
      * right. exists y. split; [apply list_elem_of_here|done].
      * right. exists x. split; [by apply list_elem_of_further|done].
    + intros [?|(x & [->|Hx]%elem_of_cons & ?)]; [by left; left|by left; right|].
      right. by exists x.
Qed.

Lemma existsb_true_iff {A : Type} (f : A → bool) (l : list A) :
  existsb f l = true ↔ ∃ x, x ∈ l ∧ f x = true.
Proof.
  rewrite existsb_exists. split; intros (x & Hx & ?); exists x; by rewrite list_elem_of_In in *.
Qed.

(** The required-library set of a package name holds exactly the resolved
    paths of the required keys that some file of an installed package of
    that name matches. *)
Theorem dependlist_characterised (os : OsPath) (db : PackageDb)
    (libdepends : gmap string string) (pkgname path : string) :
  path ∈ set_at (finddepends os db libdepends).1.1.1 pkgname ↔
  ∃ pkg k, pkg ∈ get_installed_packages db
           ∧ pkg_name pkg = pkgname
           ∧ libdepends !! k = Some path
           ∧ matched_by (actualpath_of os libdepends) k pkg = true.
Proof.
  unfold finddepends, find_owners. cbn [fst snd].
  set (ap := actualpath_of os libdepends). set (ks := elements (dom libdepends)).
  set (V := λ st : Found, path ∈ set_at (dependlist st) pkgname).
  assert (Hkey : ∀ pkg j st k,
    V (visit_key libdepends ap pkg j st k) ↔
    V st ∨ (lib_matches j (str_at ap k) = true ∧ pkg_name pkg = pkgname
            ∧ str_at libdepends k = path)).
  { intros pkg j st k. unfold V, visit_key.
    destruct (lib_matches j (str_at ap k)); cbn [dependlist]; [|intuition congruence].
    rewrite elem_of_set_at_add_at. intuition congruence. }
  assert (Hfile : ∀ pkg st f,
    V (visit_file libdepends ap ks pkg st f) ↔
    V st ∨ ∃ k, k ∈ ks ∧ file_hits ap k f = true ∧ pkg_name pkg = pkgname
                ∧ str_at libdepends k = path).
  { intros pkg st f. unfold visit_file, file_hits.
    destruct (is_so_search f.1.1); cbn [negb andb].
    - by rewrite (foldl_accumulates V _ _ ks st (Hkey pkg f.1.1)).
    - split; [by left|]. by intros [?|(k & _ & ? & _)]. }
  assert (Hpkg : ∀ st pkg,
    V (visit_package libdepends ap ks st pkg) ↔
    V st ∨ ∃ k, k ∈ ks ∧ matched_by ap k pkg = true ∧ pkg_name pkg = pkgname
                ∧ str_at libdepends k = path).
  { intros st pkg. unfold visit_package.
    rewrite (foldl_accumulates V _ _ (pkg_files pkg) st (Hfile pkg)).
    apply or_iff_compat_l. unfold matched_by. setoid_rewrite existsb_true_iff. split.
    - intros (f & Hf & k & Hk & Hhit & Hrest). exists k. split; [done|]. split; [|done].
      by exists f.
    - intros (k & Hk & (f & Hf & Hhit) & Hrest). exists f. split; [done|]. by exists k. }
  etrans; [exact (foldl_accumulates V _ _ (get_installed_packages db) nothing_found Hpkg)|].
  split.
  - intros [H|(pkg & Hin & k & Hk & Hm & Hn & Hp)]; [by apply elem_of_empty in H|].
    exists pkg, k. repeat split; try done.
    apply elem_of_elements, elem_of_dom in Hk as [p Hlk].
    unfold str_at in Hp. by rewrite Hlk in Hp |- *; cbn in Hp; subst.
  - intros (pkg & k & Hin & Hn & Hlk & Hm). right. exists pkg. split; [done|].
    exists k. repeat split; try done.
    + apply elem_of_elements, elem_of_dom. by eexists.
    + unfold str_at. by rewrite Hlk.
Qed.

Lemma visit_package_no_keys (libdepends actualpath : gmap string string) (st : Found)
    (pkg : Package) :
  visit_package libdepends actualpath [] st pkg = st.
Proof.
  unfold visit_package. induction (pkg_files pkg) as [|f fs IH] in st |- *; [done|].
  cbn [foldl].
  assert (visit_file libdepends actualpath [] pkg st f = st) as ->; [|apply IH].
  unfold visit_file. by destruct (negb (is_so_search f.1.1)).
Qed.

(** Without requirements the resolver reports nothing, whatever is
    installed: no package in the dependency list, no owner, no orphan. *)
Theorem finddepends_nothing_required (os : OsPath) (db : PackageDb) :
  finddepends os db ∅ = (∅, ∅, [], ∅).
Proof.
  unfold finddepends, find_owners, orphans_of. rewrite dom_empty_L, elements_empty.
  assert (H : foldl (visit_package ∅ (actualpath_of os ∅) []) nothing_found
                (get_installed_packages db) = nothing_found).
  { generalize nothing_found.
    induction (get_installed_packages db) as [|pkg pkgs IH]; intros st; [done|].
    cbn [foldl]. by rewrite visit_package_no_keys. }
  rewrite H. cbn [dependlist libdependlist missing_provides foundlibs nothing_found].
  by rewrite difference_empty_L, elements_empty.
Qed.

Lemma append_cons (a : ascii) (s t : string) : String a s +:+ t = String a (s +:+ t).
Proof. reflexivity. Qed.

Lemma startswith_app (p s : string) :
  Str.startswith p s = true ↔ ∃ rest, s = p +:+ rest.
Proof.
  revert s. induction p as [|a p IH]; intros s.
  - split; [by exists s|done].
  - destruct s as [|b s]; cbn [Str.startswith].
    + split; [done|]. intros [rest H]. by rewrite append_cons in H.
    + destruct (Ascii.eqb_spec a b) as [->|Hne].
      * rewrite IH. split; intros [rest H]; exists rest; rewrite append_cons in *; congruence.
      * split; [done|]. intros [rest H]. rewrite append_cons in H. congruence.
Qed.

(** The test of line 111 is a prefix test: a file matches a required path
    exactly when its path starts with it, whatever follows.  So the code
    accepts every file the anchored rule of the specification accepts, and
    never needs the exact-match branch. *)
Theorem match_is_prefix_test (j ap : string) :
  (lib_matches j ap = true ↔ ∃ rest, j = ap +:+ rest)
  ∧ (matches_by_spec j ap = true → lib_matches j ap = true).
Proof.
  rewrite lib_matches_startswith. split; [apply startswith_app|].
  unfold matches_by_spec. intros [H|[H _]%andb_true_iff]%orb_true_iff; [|done].
  by apply eqb_startswith.
Qed.

(** ** The library cache *)

Lemma cache_of_fill_line (c : LibCache) (g : option LdLine) (a : Architecture) (n : string) :
  cache_of (fill_line c g) a !! n
  = if line_for a n g then group3 <$> g else cache_of c a !! n.
Proof.
  unfold fill_line, line_for, line_architecture. destruct g as [g|]; [|done].
  cbn [fmap option_fmap option_map].
  destruct (Str.startswith "libc6,x86-64" (group2 g)), a;
    cbn [cache_of cache_i686 cache_x86_64 same_architecture];
    rewrite ?andb_true_r, ?andb_false_r; try done;
    (destruct (String.eqb_spec (group1 g) n) as [->|Hne];
     [by rewrite lookup_insert_eq|by rewrite lookup_insert_ne]).
Qed.

Lemma listed_paths_cons (a : Architecture) (n : string) (g : option LdLine)
    (lines : list (option LdLine)) :
  listed_paths a n (g :: lines)
  = match g with
    | Some g' =>
        if line_for a n (Some g') then group3 g' :: listed_paths a n lines
        else listed_paths a n lines
    | None => listed_paths a n lines
    end.
Proof.
  unfold listed_paths. destruct g as [g'|]; [|reflexivity].
  change (omap id (Some g' :: lines)) with (g' :: omap id lines).
  cbn [List.filter]. by destruct (line_for a n (Some g')).
Qed.

Lemma cache_of_filllibcache (lines : list (option LdLine)) (c : LibCache) (a : Architecture)
    (n : string) :
  cache_of (filllibcache lines c) a !! n
  = from_option Some (cache_of c a !! n) (last (listed_paths a n lines)).
Proof.
  unfold filllibcache. revert c.
  induction lines as [|g lines IH]; intros c; [done|].
  cbn [foldl]. rewrite IH, cache_of_fill_line, listed_paths_cons.
  destruct g as [g|]; [|done].
  destruct (line_for a n (Some g)); [|done].
  rewrite last_cons. by destruct (last _).
Qed.

(** After [filllibcache], a name maps, in the cache of an architecture, to
    the path of the last line of the listing that names it for that
    architecture; a name no such line mentions keeps the entry the cache
    had before, so entries of earlier runs are never dropped.  A line whose
    second group starts with [libc6,x86-64] belongs to [x86-64], any other
    line to [i686]. *)
Theorem filllibcache_lookup (lines : list (option LdLine)) (c : LibCache) (a : Architecture)
    (n : string) :
  cache_of (filllibcache lines c) a !! n
  = match last (listed_paths a n lines) with
    | Some path => Some path
    | None => cache_of c a !! n
    end.
Proof. rewrite cache_of_filllibcache. by destruct (last _). Qed.

Lemma libcache_eq (c1 c2 : LibCache) :
  (∀ a n, cache_of c1 a !! n = cache_of c2 a !! n) → c1 = c2.
Proof.
  intros H. destruct c1 as [x1 y1], c2 as [x2 y2]. f_equal; apply map_eq; intros n.
  - apply (H i686 n).
  - apply (H x86_64 n).
Qed.

(** Reading the same listing again changes nothing: the cache after a
    second [filllibcache] is the cache after the first. *)
Theorem filllibcache_idempotent (lines : list (option LdLine)) (c : LibCache) :
  filllibcache lines (filllibcache lines c) = filllibcache lines c.
Proof.
  apply libcache_eq. intros a n. rewrite !cache_of_filllibcache.
  by destruct (last (listed_paths a n lines)).
Qed.

(** ** The override map *)

Lemma foldl_invariant {A S : Type} (P : S → Prop) (f : S → A → S) (l : list A) (s : S) :
  (∀ s0 x, x ∈ l → P s0 → P (f s0 x)) → P s → P (foldl f s l).
Proof.
  revert s. induction l as [|y l IH]; intros s Hf Hs; [done|].
  cbn [foldl]. apply IH.
  - intros s0 x Hx. apply Hf. by apply list_elem_of_further.
  - apply Hf; [apply list_elem_of_here|done].
Qed.

(** Every entry of the override map of a file leads from the base name of
    a member of the tarball whose name contains [.so] to that name with a
    slash in front, and the directory of the member is one of the search
    paths of the file, with [$ORIGIN] replaced by the directory of the
    file.  Without search paths the map is empty. *)
Theorem overrides_are_package_libraries (os : OsPath) (entry_path : string)
    (tar : list TarEntry) (search_paths : list string) (b n : string) :
  rpath_files_of os entry_path (pkg_so_files tar) search_paths !! b = Some n →
  basename n = b
  ∧ (∃ entry, entry ∈ tar ∧ n = "/" +:+ entry_name entry
              ∧ Str.contains ".so" (entry_name entry) = true)
  ∧ ∃ rp, rp ∈ search_paths
          ∧ dirname n
            = normpath os (replace "$ORIGIN" ("/" +:+ dirname entry_path) rp).
Proof.
  set (P := λ acc : gmap string string, ∀ b n, acc !! b = Some n →
    basename n = b ∧ n ∈ pkg_so_files tar
    ∧ ∃ rp, rp ∈ search_paths
            ∧ dirname n = normpath os (replace "$ORIGIN" ("/" +:+ dirname entry_path) rp)).
  assert (HP : P (rpath_files_of os entry_path (pkg_so_files tar) search_paths)).
  { unfold rpath_files_of. apply foldl_invariant; [|by intros ? ? ?].
    intros acc n0 Hn0 Hacc. apply foldl_invariant; [|done].
    intros acc' rp Hrp Hacc'.
    destruct (String.eqb_spec (dirname n0)
                (normpath os (replace "$ORIGIN" ("/" +:+ dirname entry_path) rp)))
      as [Heq|_]; [|done].
    intros b' n'. destruct (decide (basename n0 = b')) as [<-|Hne].
    - rewrite lookup_insert_eq. intros [= <-]. split; [done|]. split; [done|]. by exists rp.
    - rewrite lookup_insert_ne by done. apply Hacc'. }
  intros Hlk. destruct (HP b n Hlk) as (Hb & Hn & Hrp). split; [done|]. split; [|done].
  unfold pkg_so_files in Hn. apply list_elem_of_fmap in Hn as (name0 & -> & Hname).
  apply elem_of_bool_filter in Hname as [(entry & -> & He)%list_elem_of_fmap Hso].
  by exists entry.
Qed.

Lemma overrides_are_package_libraries_witness :
  let tar := [{| isfile := true; entry_name := "opt/app/bin/app";
                 extractfile := {| is_elf := true; elfclass := 64; sections := [];
                                   rpaths := ["$ORIGIN/../lib"]; runpaths := [] |} |};
              {| isfile := true; entry_name := "opt/app/lib/libfoo.so.1";
                 extractfile := {| is_elf := true; elfclass := 64; sections := [];
                                   rpaths := []; runpaths := [] |} |}] in
  let os := {| abspath := id; realpath := id;
               normpath := λ p, if String.eqb p "/opt/app/bin/../lib" then "/opt/app/lib"
                                else p |} in
  rpath_files_of os "opt/app/bin/app" (pkg_so_files tar) ["$ORIGIN/../lib"] !! "libfoo.so.1"
  = Some "/opt/app/lib/libfoo.so.1"
  ∧ basename "/opt/app/lib/libfoo.so.1" = "libfoo.so.1".
Proof.
  intros tar os.
  assert (H : rpath_files_of os "opt/app/bin/app" (pkg_so_files tar) ["$ORIGIN/../lib"]
              !! "libfoo.so.1" = Some "/opt/app/lib/libfoo.so.1").
  { vm_compute. reflexivity. }
  split; [exact H|].
  exact (proj1 (overrides_are_package_libraries os "opt/app/bin/app" tar ["$ORIGIN/../lib"]
                  "libfoo.so.1" "/opt/app/lib/libfoo.so.1" H)).
Defined.

(** ** The library directories *)

Lemma append_nil_l (s : string) : EmptyString +:+ s = s.
Proof. reflexivity. Qed.

Lemma slash_free_cons (c : ascii) (s : string) :
  Str.contains "/" (String c s) = false → Ascii.eqb "/" c = false ∧ Str.contains "/" s = false.
Proof.
  cbn [Str.contains Str.startswith]. intros [H1 H2]%orb_false_iff. split; [|done].
  by destruct (Ascii.eqb "/" c).
Qed.

Lemma rfind_slash_free (s : string) : Str.contains "/" s = false → Str.rfind "/" s = None.
Proof.
  induction s as [|c s IH]; [done|]. intros [Hc Hs]%slash_free_cons.
  cbn [Str.rfind Str.startswith]. by rewrite (IH Hs), Hc.
Qed.

Lemma rfind_before_slash_free (x s : string) :
  Str.contains "/" s = false →
  Str.rfind "/" (x +:+ String "/" s) = Some (String.length x).
Proof.
  intros Hs. induction x as [|c x IH].
  - rewrite append_nil_l. cbn [Str.rfind Str.startswith]. by rewrite (rfind_slash_free s Hs).
  - rewrite append_cons. cbn [Str.rfind]. by rewrite IH.
Qed.

Lemma take_app_length (x s : string) (k : nat) :
  Str.take (String.length x + k) (x +:+ s) = x +:+ Str.take k s.
Proof.
  induction x as [|c x IH]; [done|].
  rewrite !append_cons. cbn [String.length Nat.add Str.take]. by rewrite IH.
Qed.

Lemma all_slashes_app (x s : string) :
  all_slashes (x +:+ s) = all_slashes x && all_slashes s.
Proof.
  induction x as [|c x IH]; [done|].
  rewrite append_cons. cbn [all_slashes]. by rewrite IH, andb_assoc.
Qed.

Lemma rstrip_slash_keeps (x s : string) :
  rstrip_slash s ≠ EmptyString → rstrip_slash (x +:+ s) = x +:+ rstrip_slash s.
Proof.
  intros Hs. induction x as [|c x IH]; [done|].
  rewrite !append_cons. cbn [rstrip_slash]. rewrite IH.
  destruct (x +:+ rstrip_slash s) eqn:E; [|done].
  destruct x; [by rewrite append_nil_l in E|by rewrite append_cons in E].
Qed.

Lemma rstrip_slash_fixed_tail (c : ascii) (x : string) :
  x ≠ EmptyString → rstrip_slash (String c x) = String c x → rstrip_slash x = x.
Proof.
  intros Hne H. cbn [rstrip_slash] in H. destruct (rstrip_slash x) as [|a r] eqn:E.
  - destruct (Ascii.eqb c "/"); [done|]. injection H as <-. done.
  - by injection H as <-.
Qed.

Lemma rstrip_slash_fixed_slash (x : string) :
  x ≠ EmptyString → rstrip_slash x = x → rstrip_slash (x +:+ "/") = x.
Proof.
  induction x as [|c x IH]; [done|]. intros _ H.
  rewrite append_cons. destruct x as [|c' x].
  - rewrite append_nil_l. exact H.
  - cbn [rstrip_slash]. rewrite IH; [done|done|].
    by apply (rstrip_slash_fixed_tail c).
Qed.

Lemma all_slashes_not_fixed (x : string) :
  x ≠ EmptyString → rstrip_slash x = x → all_slashes x = false.
Proof.
  induction x as [|c x IH]; [done|]. intros _ H. cbn [all_slashes].
  destruct (Ascii.eqb c "/") eqn:Hc; [|done]. cbn [andb]. destruct x as [|c' x].
  - cbn in H. by rewrite Hc in H.
  - apply IH; [done|]. by apply (rstrip_slash_fixed_tail c).
Qed.

Lemma rstrip_slash_free (d : string) : Str.contains "/" d = false → rstrip_slash d = d.
Proof.
  induction d as [|c d IH]; [done|]. intros [Hc Hd]%slash_free_cons.
  cbn [rstrip_slash]. rewrite (IH Hd). destruct d; [|done].
  rewrite Ascii.eqb_sym in Hc. by rewrite Hc.
Qed.

(** The directory of a path made of a directory that does not end in a
    slash, a slash and a name without slash is that directory. *)
Lemma dirname_child (x f : string) :
  rstrip_slash x = x → x ≠ EmptyString → Str.contains "/" f = false →
  dirname (x +:+ String "/" f) = x.
Proof.
  intros Hx Hne Hf. unfold dirname, after_last_slash.
  rewrite (rfind_before_slash_free x f Hf).
  replace (S (String.length x)) with (String.length x + 1)%nat by lia.
  rewrite take_app_length. cbn [Str.take].
  rewrite all_slashes_app, (all_slashes_not_fixed x Hne Hx). cbn [andb negb].
  rewrite (rstrip_slash_fixed_slash x Hne Hx).
  destruct (String.eqb_spec (x +:+ "/") EmptyString) as [E|_]; [|done].
  destruct x; [done|by rewrite append_cons in E].
Qed.

(** A file provides a library only from the top of a library directory: a
    name without slash directly under [usr/lib] or [usr/lib32] passes the
    test of line 52, and a name in a subdirectory of [usr/lib] does not. *)
Theorem library_directory_children (f : string) :
  Str.contains "/" f = false →
  in_lib_dir ("usr/lib/" +:+ f) = true
  ∧ in_lib_dir ("usr/lib32/" +:+ f) = true
  ∧ ∀ d, d ≠ EmptyString → Str.contains "/" d = false →
         in_lib_dir ("usr/lib/" +:+ d +:+ "/" +:+ f) = false.
Proof.
  intros Hf. unfold in_lib_dir. split; [|split].
  - change ("usr/lib/" +:+ f) with ("usr/lib" +:+ String "/" f).
    by rewrite dirname_child.
  - change ("usr/lib32/" +:+ f) with ("usr/lib32" +:+ String "/" f).
    by rewrite dirname_child.
  - intros d Hne Hd.
    change ("usr/lib/" +:+ d +:+ "/" +:+ f) with ("usr/lib/" +:+ (d +:+ String "/" f)).
    assert (Hassoc : "usr/lib/" +:+ (d +:+ String "/" f) = ("usr/lib/" +:+ d) +:+ String "/" f).
    { by rewrite !append_cons, !append_nil_l. }
    rewrite Hassoc, dirname_child; [| |by rewrite !append_cons|done].
    + rewrite !append_cons, append_nil_l. cbn [String.eqb Ascii.eqb Bool.eqb].
      by destruct d.
    + rewrite rstrip_slash_keeps; rewrite (rstrip_slash_free d Hd); done.
Qed.

Lemma library_directory_children_witness :
  Str.contains "/" "libown.so.1" = false
  ∧ in_lib_dir "usr/lib/libown.so.1" = true
  ∧ in_lib_dir "usr/lib/plugins/libown.so.1" = false.
Proof.
  split; [reflexivity|].
  destruct (library_directory_children "libown.so.1" eq_refl) as (H1 & _ & H3).
  split; [exact H1|]. apply (H3 "plugins"); [discriminate|reflexivity].
Defined.

(** ** What the reporter tells *)

Lemma drop_internal_owned_elsewhere (pkgname : string) (d : gmap string string) (i : string) :
  bool_decide (is_Some (drop_internal pkgname d !! i)) = owned_elsewhere pkgname d i.
Proof.
  unfold owned_elsewhere, drop_internal. destruct (d !! i) as [p|] eqn:E.
  - destruct (String.eqb_spec p pkgname) as [->|Hne]; cbn [negb].
    + apply bool_decide_eq_false_2. intros [x Hx].
      apply map_lookup_filter_Some in Hx as [Hx Hp]. cbn in Hp. congruence.
    + apply bool_decide_eq_true_2. exists p. by apply map_lookup_filter_Some.
  - apply bool_decide_eq_false_2. intros [x Hx].
    apply map_lookup_filter_Some in Hx as [Hx _]. congruence.
Qed.

Lemma filter_flat_map_nil {A : Type} (q : Msg → bool) (W : A → list Msg) (l : list A) :
  (∀ x, List.filter q (W x) = []) → List.filter q (flat_map W l) = [].
Proof.
  intros HW. induction l as [|x l IH]; [done|].
  cbn [flat_map]. by rewrite List.filter_app, HW, IH.
Qed.

Lemma filter_flat_map_all {A : Type} (q : Msg → bool) (W : A → list Msg) (l : list A) :
  (∀ x, List.filter q (W x) = W x) → List.filter q (flat_map W l) = flat_map W l.
Proof.
  intros HW. induction l as [|x l IH]; [done|].
  cbn [flat_map]. by rewrite List.filter_app, HW, IH.
Qed.

Lemma filter_fmap_nil {A : Type} (q : Msg → bool) (f : A → Msg) (l : list A) :
  (∀ x, q (f x) = false) → List.filter q (f <$> l) = [].
Proof. intros Hf. induction l as [|x l IH]; [done|]. cbn. by rewrite Hf. Qed.

Lemma filter_ext_bool {A : Type} (p q : A → bool) (l : list A) :
  (∀ x, p x = q x) → List.filter p l = List.filter q l.
Proof. intros H. induction l as [|x l IH]; [done|]. cbn. by rewrite H, IH. Qed.

Lemma testing_warnings_only (q : Msg → bool) (db : PackageDb) (i : string) :
  q (dependency_is_testing_release i) = false → List.filter q (testing_warnings db i) = [].
Proof.
  intros Hq. unfold testing_warnings.
  destruct (load_testing_package db i) as [p|], (load_from_db db i) as [v|]; try done.
  destruct (String.eqb p v); [|done]. cbn. by rewrite Hq.
Qed.

(** A declared dependency that contains [.so] is reported as not needed,
    once and in the order of the declaration, exactly when the resolver did
    not give it to a package other than the analysed one: also when the
    library is found only in a package that does not declare it, and when
    the package satisfies it itself. *)
Theorem unneeded_dependencies_reported (os : OsPath) (db : PackageDb)
    (ldconfig : list (option LdLine)) (libcache0 : LibCache) (rule : Rule) (pkginfo : PkgInfo)
    (tar : list TarEntry) (m : ScanMaps) :
  scan_package os (filllibcache ldconfig libcache0) tar = Ok m →
  ∃ rule' pkginfo',
    analyze os db ldconfig libcache0 rule pkginfo tar = Ok (rule', pkginfo')
    ∧ List.filter is_not_needed (warnings rule')
      = List.filter is_not_needed (warnings rule)
        ++ (libdepends_not_needed <$>
              List.filter
                (λ i, Str.contains ".so" i
                      && negb (owned_elsewhere (name pkginfo)
                                 (finddepends os db (libdepends m)).1.1.2 i))
                (depends pkginfo)).
Proof.
  intros Hscan.
  exists (report os db pkginfo m rule).1, (report os db pkginfo m rule).2. split.
  - rewrite (analyze_after_scan _ _ _ _ _ _ _ _ Hscan). by destruct (report _ _ _ _ _).
  - rewrite report_rule. unfold emit, finddepends. cbn [warnings fst snd].
    rewrite !List.filter_app.
    rewrite (filter_fmap_nil is_not_needed (orphan_warning m)) by done.
    rewrite (filter_flat_map_nil is_not_needed (testing_warnings db))
      by (intros i; by apply testing_warnings_only).
    rewrite (filter_flat_map_nil is_not_needed (provide_warnings m))
      by (intros i; unfold provide_warnings; by destruct (_ && _)).
    rewrite (filter_flat_map_all is_not_needed (depend_warnings _))
      by (intros i; unfold depend_warnings; by destruct (_ && _)).
    rewrite !app_nil_r. cbn [app]. f_equal. unfold depend_warnings.
    rewrite flat_map_filter. f_equal. apply filter_ext_bool. intros i.
    by rewrite drop_internal_owned_elsewhere.
Qed.

Lemma unneeded_dependencies_reported_witness :
  scan_package plain_os (filllibcache sample_ldconfig sample_libcache0) sample_tar
  = Ok sample_maps
  ∧ ∃ rule' pkginfo',
      analyze plain_os sample_db sample_ldconfig sample_libcache0 no_rule sample_pkginfo
        sample_tar = Ok (rule', pkginfo')
      ∧ List.filter is_not_needed (warnings rule') = [libdepends_not_needed "libbar.so"].
Proof.
  split; [exact sample_scan|].
  destruct (unneeded_dependencies_reported plain_os sample_db sample_ldconfig
              sample_libcache0 no_rule sample_pkginfo sample_tar sample_maps sample_scan)
    as (rule' & pkginfo' & Hrun & Hw).
  exists rule', pkginfo'. split; [exact Hrun|]. rewrite Hw. vm_compute. reflexivity.
Defined.

(** A declared provision that contains [.so] is reported as missing, once
    and in the order of the declaration, exactly when no scanned file
    provides a library under that key. *)
Theorem missing_provisions_reported (os : OsPath) (db : PackageDb)
    (ldconfig : list (option LdLine)) (libcache0 : LibCache) (rule : Rule) (pkginfo : PkgInfo)
    (tar : list TarEntry) (m : ScanMaps) :
  scan_package os (filllibcache ldconfig libcache0) tar = Ok m →
  ∃ rule' pkginfo',
    analyze os db ldconfig libcache0 rule pkginfo tar = Ok (rule', pkginfo')
    ∧ List.filter is_provides_missing (warnings rule')
      = List.filter is_provides_missing (warnings rule)
        ++ (libprovides_missing <$>
              List.filter
                (λ i, Str.contains ".so" i && negb (bool_decide (i ∈ dom (libprovides m))))
                (provides pkginfo)).
Proof.
  intros Hscan.
  exists (report os db pkginfo m rule).1, (report os db pkginfo m rule).2. split.
  - rewrite (analyze_after_scan _ _ _ _ _ _ _ _ Hscan). by destruct (report _ _ _ _ _).
  - rewrite report_rule. unfold emit. cbn [warnings]. rewrite !List.filter_app.
    rewrite (filter_fmap_nil is_provides_missing (orphan_warning m)) by done.
    rewrite (filter_flat_map_nil is_provides_missing (testing_warnings db))
      by (intros i; by apply testing_warnings_only).
    rewrite (filter_flat_map_nil is_provides_missing (depend_warnings _))
      by (intros i; unfold depend_warnings; by destruct (_ && _)).
    rewrite (filter_flat_map_all is_provides_missing (provide_warnings m))
      by (intros i; unfold provide_warnings; by destruct (_ && _)).
    rewrite !app_nil_r. cbn [app]. f_equal. unfold provide_warnings.
    rewrite flat_map_filter. f_equal. apply filter_ext_bool. intros i.
    do 2 f_equal. apply bool_decide_ext. by rewrite elem_of_dom.
Qed.

Lemma missing_provisions_reported_witness :
  scan_package plain_os (filllibcache sample_ldconfig sample_libcache0) sample_tar
  = Ok sample_maps
  ∧ ∃ rule' pkginfo',
      analyze plain_os sample_db sample_ldconfig sample_libcache0 no_rule sample_pkginfo
        sample_tar = Ok (rule', pkginfo')
      ∧ List.filter is_provides_missing (warnings rule') = [libprovides_missing "libown.so"].
Proof.
  split; [exact sample_scan|].
  destruct (missing_provisions_reported plain_os sample_db sample_ldconfig
              sample_libcache0 no_rule sample_pkginfo sample_tar sample_maps sample_scan)
    as (rule' & pkginfo' & Hrun & Hw).
  exists rule', pkginfo'. split; [exact Hrun|]. rewrite Hw. vm_compute. reflexivity.
Defined.

(** A key the resolver gives to a package other than the analysed one gets
    its [libdepends-detected-...] info with that package as owner:
    satisfied if the key is in [depends], optional if it is in
    [optdepends] only, not included otherwise. *)
Theorem external_dependencies_detected (os : OsPath) (db : PackageDb)
    (ldconfig : list (option LdLine)) (libcache0 : LibCache) (rule : Rule) (pkginfo : PkgInfo)
    (tar : list TarEntry) (m : ScanMaps) (k owner : string) :
  scan_package os (filllibcache ldconfig libcache0) tar = Ok m →
  (finddepends os db (libdepends m)).1.1.2 !! k = Some owner →
  owner ≠ name pkginfo →
  ∃ rule' pkginfo',
    analyze os db ldconfig libcache0 rule pkginfo tar = Ok (rule', pkginfo')
    ∧ (if mem k (depends pkginfo)
       then libdepends_detected_satisfied k owner (requesters m k)
       else if mem k (optdepends pkginfo)
            then libdepends_detected_but_optional k owner (requesters m k)
            else libdepends_detected_not_included k owner (requesters m k))
      ∈ infos rule'.
Proof.
  intros Hscan Hown Hne.
  exists (report os db pkginfo m rule).1, (report os db pkginfo m rule).2. split.
  - rewrite (analyze_after_scan _ _ _ _ _ _ _ _ Hscan). by destruct (report _ _ _ _ _).
  - rewrite report_rule. unfold emit, new_infos. cbn [infos].
    unfold finddepends in Hown. cbn [fst snd] in Hown.
    set (l := drop_internal (name pkginfo) (libdependlist (find_owners os db (libdepends m)))).
    assert (Hl : l !! k = Some owner) by by apply map_lookup_filter_Some.
    rewrite !elem_of_app. right. right. right. left.
    apply list_elem_of_fmap. exists k. split.
    + unfold soname_info, str_at. by rewrite Hl.
    + apply elem_of_elements, elem_of_dom. by eexists.
Qed.

Lemma external_dependencies_detected_witness :
  scan_package plain_os (filllibcache sample_ldconfig sample_libcache0) sample_tar
  = Ok sample_maps
  ∧ (finddepends plain_os sample_db (libdepends sample_maps)).1.1.2 !! "libfoo.so=2-64"
    = Some "Q"
  ∧ "Q" ≠ name sample_pkginfo
  ∧ ∃ rule' pkginfo',
      analyze plain_os sample_db sample_ldconfig sample_libcache0 no_rule sample_pkginfo
        sample_tar = Ok (rule', pkginfo')
      ∧ libdepends_detected_satisfied "libfoo.so=2-64" "Q"
          (requesters sample_maps "libfoo.so=2-64") ∈ infos rule'.
Proof.
  split; [exact sample_scan|].
  assert (H : (finddepends plain_os sample_db (libdepends sample_maps)).1.1.2
              !! "libfoo.so=2-64" = Some "Q").
  { vm_compute. reflexivity. }
  assert (Hne : "Q" ≠ name sample_pkginfo). { discriminate. }
  split; [exact H|]. split; [exact Hne|].
  exact (external_dependencies_detected plain_os sample_db sample_ldconfig sample_libcache0
           no_rule sample_pkginfo sample_tar sample_maps "libfoo.so=2-64" "Q" sample_scan
           H Hne).
Defined.

Lemma link_level_pkginfo (m : ScanMaps) (items : list (string * gset string))
    (st : Rule * PkgInfo) :
  NoDup items.*1 →
  let out := (foldl (link_level m) st items).2 in
  name out = name st.2 ∧ depends out = depends st.2
  ∧ optdepends out = optdepends st.2 ∧ provides out = provides st.2
  ∧ ∀ pkg, detected_deps out !! pkg
           = match (list_to_map items : gmap string (gset string)) !! pkg with
             | Some libraries =>
                 Some (default [] (detected_deps st.2 !! pkg) ++ [needed_reason m libraries])
             | None => detected_deps st.2 !! pkg
             end.
Proof.
  revert st. induction items as [|[pkg0 libs0] items IH]; intros st Hnd; [done|].
  apply NoDup_cons in Hnd as [Hfresh Hnd]. cbn [foldl].
  destruct (IH (link_level m st (pkg0, libs0)) Hnd) as (H1 & H2 & H3 & H4 & H5).
  cbn zeta. rewrite H1, H2, H3, H4. repeat (split; [done|]).
  intros pkg. rewrite H5. cbn [list_to_map foldr fst snd link_level detected_deps].
  destruct (decide (pkg0 = pkg)) as [->|Hne].
  - rewrite (not_elem_of_list_to_map_1 _ _ Hfresh), !lookup_insert_eq. done.
  - by rewrite !lookup_insert_ne.
Qed.

(** [analyze] leaves the name and the declared lists of [pkginfo] as they
    are, and adds to [detected_deps] one reason for every package of the
    dependency list, after the reasons that package already had: the
    libraries found in it and the files that need them. *)
Theorem detected_deps_updated (os : OsPath) (db : PackageDb) (ldconfig : list (option LdLine))
    (libcache0 : LibCache) (rule : Rule) (pkginfo : PkgInfo) (tar : list TarEntry)
    (m : ScanMaps) :
  scan_package os (filllibcache ldconfig libcache0) tar = Ok m →
  ∃ rule' pkginfo',
    analyze os db ldconfig libcache0 rule pkginfo tar = Ok (rule', pkginfo')
    ∧ name pkginfo' = name pkginfo ∧ depends pkginfo' = depends pkginfo
    ∧ optdepends pkginfo' = optdepends pkginfo ∧ provides pkginfo' = provides pkginfo
    ∧ ∀ pkg, detected_deps pkginfo' !! pkg
             = match (finddepends os db (libdepends m)).1.1.1 !! pkg with
               | Some libraries =>
                   Some (default [] (detected_deps pkginfo !! pkg)
                         ++ [needed_reason m libraries])
               | None => detected_deps pkginfo !! pkg
               end.
Proof.
  intros Hscan.
  exists (report os db pkginfo m rule).1, (report os db pkginfo m rule).2. split.
  - rewrite (analyze_after_scan _ _ _ _ _ _ _ _ Hscan). by destruct (report _ _ _ _ _).
  - unfold report, finddepends. cbv zeta. cbn [fst snd].
    match goal with
    | |- context [foldl (link_level m) ?st0 ?items] =>
        pose proof (link_level_pkginfo m items st0 (NoDup_fst_map_to_list _)) as Hl;
        destruct (foldl (link_level m) st0 items) as [r3 pkginfo'] eqn:E
    end.
    cbn [fst snd] in Hl |- *. destruct Hl as (H1 & H2 & H3 & H4 & H5).
    repeat (split; [done|]). intros pkg. by rewrite H5, list_to_map_to_list.
Qed.

Lemma detected_deps_updated_witness :
  scan_package plain_os (filllibcache sample_ldconfig sample_libcache0) sample_tar
  = Ok sample_maps
  ∧ ∃ rule' pkginfo',
      analyze plain_os sample_db sample_ldconfig sample_libcache0 no_rule sample_pkginfo
        sample_tar = Ok (rule', pkginfo')
      ∧ depends pkginfo' = depends sample_pkginfo
      ∧ detected_deps pkginfo' !! "Q"
        = Some [libraries_needed {["usr/lib/libfoo.so.2"]} {["usr/bin/app"]}].
Proof.
  split; [exact sample_scan|].
  destruct (detected_deps_updated plain_os sample_db sample_ldconfig sample_libcache0 no_rule
              sample_pkginfo sample_tar sample_maps sample_scan)
    as (rule' & pkginfo' & Hrun & _ & Hd & _ & _ & Hdd).
  exists rule', pkginfo'. split; [exact Hrun|]. split; [exact Hd|].
  rewrite Hdd. vm_compute. reflexivity.
Defined.

Lemma dependlist_dom (os : OsPath) (db : PackageDb) (libdepends : gmap string string)
    (pkgname : string) :
  pkgname ∈ dom (dependlist (find_owners os db libdepends)) ↔
  ∃ pkg k, pkg ∈ get_installed_packages db
           ∧ pkg_name pkg = pkgname
           ∧ k ∈ dom libdepends
           ∧ matched_by (actualpath_of os libdepends) k pkg = true.
Proof.
  unfold find_owners.
  set (ap := actualpath_of os libdepends). set (ks := elements (dom libdepends)).
  set (V := λ st : Found, pkgname ∈ dom (dependlist st)).
  assert (Hkey : ∀ pkg j st k,
    V (visit_key libdepends ap pkg j st k) ↔
    V st ∨ (lib_matches j (str_at ap k) = true ∧ pkg_name pkg = pkgname)).
  { intros pkg j st k. unfold V, visit_key.
    destruct (lib_matches j (str_at ap k)); cbn [dependlist]; [|intuition congruence].
    unfold add_at. rewrite dom_insert_L, elem_of_union, elem_of_singleton.
    intuition congruence. }
  assert (Hfile : ∀ pkg st f,
    V (visit_file libdepends ap ks pkg st f) ↔
    V st ∨ ∃ k, k ∈ ks ∧ file_hits ap k f = true ∧ pkg_name pkg = pkgname).
  { intros pkg st f. unfold visit_file, file_hits.
    destruct (is_so_search f.1.1); cbn [negb andb].
    - by rewrite (foldl_accumulates V _ _ ks st (Hkey pkg f.1.1)).
    - split; [by left|]. by intros [?|(k & _ & ? & _)]. }
  assert (Hpkg : ∀ st pkg,
    V (visit_package libdepends ap ks st pkg) ↔
    V st ∨ ∃ k, k ∈ ks ∧ matched_by ap k pkg = true ∧ pkg_name pkg = pkgname).
  { intros st pkg. unfold visit_package.
    rewrite (foldl_accumulates V _ _ (pkg_files pkg) st (Hfile pkg)).
    apply or_iff_compat_l. unfold matched_by. setoid_rewrite existsb_true_iff. split.
    - intros (f & Hf & k & Hk & Hhit & Hrest). exists k. split; [done|]. split; [|done].
      by exists f.
    - intros (k & Hk & (f & Hf & Hhit) & Hrest). exists f. split; [done|]. by exists k. }
  etrans; [exact (foldl_accumulates V _ _ (get_installed_packages db) nothing_found Hpkg)|].
  split.
  - intros [H|(pkg & Hin & k & Hk & Hm & Hn)]; [by apply elem_of_empty in H|].
    exists pkg, k. repeat split; try done. by apply elem_of_elements in Hk.
  - intros (pkg & k & Hin & Hn & Hk & Hm). right. exists pkg. split; [done|].
    exists k. repeat split; try done. by apply elem_of_elements.
Qed.

(** The testing-release warning is added for a package name exactly when
    an installed package of that name has a file that matches a required
    key, and the testing repository and the database both know the name
    with the same version. *)
Theorem testing_releases_reported (os : OsPath) (db : PackageDb)
    (ldconfig : list (option LdLine)) (libcache0 : LibCache) (rule : Rule) (pkginfo : PkgInfo)
    (tar : list TarEntry) (m : ScanMaps) (i : string) :
  scan_package os (filllibcache ldconfig libcache0) tar = Ok m →
  ∃ rule' pkginfo',
    analyze os db ldconfig libcache0 rule pkginfo tar = Ok (rule', pkginfo')
    ∧ (dependency_is_testing_release i ∈ warnings rule' ↔
       dependency_is_testing_release i ∈ warnings rule
       ∨ ((∃ pkg k, pkg ∈ get_installed_packages db
                    ∧ pkg_name pkg = i
                    ∧ k ∈ dom (libdepends m)
                    ∧ matched_by (actualpath_of os (libdepends m)) k pkg = true)
          ∧ ∃ version, load_testing_package db i = Some version
                       ∧ load_from_db db i = Some version)).
Proof.
  intros Hscan.
  exists (report os db pkginfo m rule).1, (report os db pkginfo m rule).2. split.
  - rewrite (analyze_after_scan _ _ _ _ _ _ _ _ Hscan). by destruct (report _ _ _ _ _).
  - rewrite report_rule. unfold emit. cbn [warnings].
    rewrite <- dependlist_dom, !elem_of_app. rewrite !list_elem_of_In, !in_flat_map.
    setoid_rewrite <- list_elem_of_In. split.
    + intros [?|[Ho|[(x & _ & Hx)|[(x & _ & Hx)|(x & Hin & Hx)]]]]; [by left|exfalso..|right].
      * apply list_elem_of_fmap in Ho as (x & Hx & _). discriminate Hx.
      * unfold depend_warnings in Hx. destruct (_ && _); [|by apply elem_of_nil in Hx].
        apply list_elem_of_singleton in Hx. discriminate Hx.
      * unfold provide_warnings in Hx. destruct (_ && _); [|by apply elem_of_nil in Hx].
        apply list_elem_of_singleton in Hx. discriminate Hx.
      * unfold testing_warnings in Hx.
        destruct (load_testing_package db x) as [p|] eqn:Hp,
                 (load_from_db db x) as [v|] eqn:Hv; try by apply elem_of_nil in Hx.
        destruct (String.eqb_spec p v) as [->|_]; [|by apply elem_of_nil in Hx].
        apply list_elem_of_singleton in Hx. injection Hx as ->.
        split; [by apply elem_of_elements in Hin|]. by exists v.
    + intros [?|[Hd (v & Hp & Hv)]]; [by left|]. right. right. right. right.
      exists i. split; [by apply elem_of_elements|].
      unfold testing_warnings. rewrite Hp, Hv, String.eqb_refl. apply list_elem_of_here.
Qed.

Lemma testing_releases_reported_witness :
  let db := {| get_installed_packages := get_installed_packages sample_db;
               load_testing_package := λ i, if String.eqb i "Q" then Some "2.0.1-1" else None;
               load_from_db := λ i, Some "2.0.1-1" |} in
  scan_package plain_os (filllibcache sample_ldconfig sample_libcache0) sample_tar
  = Ok sample_maps
  ∧ ∃ rule' pkginfo',
      analyze plain_os db sample_ldconfig sample_libcache0 no_rule sample_pkginfo sample_tar
      = Ok (rule', pkginfo')
      ∧ dependency_is_testing_release "Q" ∈ warnings rule'.
Proof.
  intros db. split; [exact sample_scan|].
  destruct (testing_releases_reported plain_os db sample_ldconfig sample_libcache0 no_rule
              sample_pkginfo sample_tar sample_maps "Q" sample_scan)
    as (rule' & pkginfo' & Hrun & Hw).
  exists rule', pkginfo'. split; [exact Hrun|]. apply Hw. right. split.
  - exists (default (Build_Package EmptyString [] []) (get_installed_packages db !! 0%nat)),
      "libfoo.so=2-64".
    split; [apply list_elem_of_here|]. split; [reflexivity|].
    split; [|vm_compute; reflexivity].
    apply elem_of_dom. exists "usr/lib/libfoo.so.2". vm_compute. reflexivity.
  - exists "2.0.1-1". split; reflexivity.
Defined.
